(** * No-More-Leaks EdgeWorker: a shallow embedding of [main.ts]

    The worker reads the JSON body of a login request, asks a key
    generator for a key derived from the credentials, asks a lookup
    service whether that key is known, relays the request to the
    origin and then chooses the response.

    The embedding keeps the JavaScript behaviour that decides what the
    worker does at run time: property reads on [null] and [undefined]
    throw, [in] throws on primitives, [try]/[catch] absorbs what is
    thrown inside it, and a value read out of a parsed reply is handed
    on unchecked.  Sub-requests and log lines are recorded in an
    explicit state; an exception (or rejected promise) is a [Throw]. *)

From Stdlib Require Import DecimalString Ascii.
From stdpp Require Import gmap strings list fin_maps.

Local Open Scope string_scope.
Local Open Scope nat_scope.
Local Open Scope list_scope.

(** ** Strings

    A [string] stands for a JavaScript string whose UTF-16 code units
    are all below 256: one [ascii] per code unit. *)

Definition quote_char : ascii := ascii_of_nat 34.
Definition backslash_char : ascii := ascii_of_nat 92.

Definition string_of_nat (n : nat) : string :=
  NilZero.string_of_uint (Nat.to_uint n).

Definition string_of_Z (z : Z) : string :=
  NilZero.string_of_int (Z.to_int z).

(** The canonical array index a property key denotes, if any:
    ["0"], ["17"], but not ["01"] or ["length"]. *)
Definition index_of_key (k : string) : option nat :=
  match NilZero.uint_of_string k with
  | Some u =>
      let n := Nat.of_uint u in
      if bool_decide (string_of_nat n = k) then Some n else None
  | None => None
  end.

Definition hex_digit (n : nat) : ascii :=
  if n <? 10 then ascii_of_nat (48 + n) else ascii_of_nat (87 + n).

(** [QuoteJSONString] of ECMAScript, one code unit at a time. *)
Definition quote_code_unit (c : ascii) : string :=
  let n := nat_of_ascii c in
  if n =? 8 then String backslash_char "b"
  else if n =? 9 then String backslash_char "t"
  else if n =? 10 then String backslash_char "n"
  else if n =? 12 then String backslash_char "f"
  else if n =? 13 then String backslash_char "r"
  else if n =? 34 then String backslash_char (String quote_char EmptyString)
  else if n =? 92 then String backslash_char (String backslash_char EmptyString)
  else if n <? 32 then
    String backslash_char
      ("u00" +:+ String (hex_digit (n / 16)) (String (hex_digit (n mod 16)) EmptyString))
  else String c EmptyString.

Fixpoint quote_code_units (s : string) : string :=
  match s with
  | EmptyString => EmptyString
  | String c s' => quote_code_unit c +:+ quote_code_units s'
  end.

Definition QuoteJSONString (s : string) : string :=
  String quote_char (quote_code_units s +:+ String quote_char EmptyString).

Fixpoint join_comma (l : list string) : string :=
  match l with
  | [] => EmptyString
  | [x] => x
  | x :: rest => x +:+ "," +:+ join_comma rest
  end.

(** A header object: the values of each header name.  A value is a
    string, or [None] for [undefined]. *)
Abbreviation Headers := (gmap string (list (option string))).

(** ** Values *)

Section Worker.

(** JSON numbers are IEEE doubles; the embedding never computes with
    them, so their type is left open. *)
Context {number : Type}.

(** A parsed JSON text.  An object is the list of its properties in
    enumeration order; a parser yields distinct keys. *)
#[warnings="-register-all"]
Inductive JSON : Type :=
| JNull
| JBool (b : bool)
| JNum (x : number)
| JStr (s : string)
| JArr (elements : list JSON)
| JObj (properties : list (string * JSON)).

(** A run-time value: [undefined], a length (the only numbers the
    worker computes itself), or a value out of a parsed JSON text. *)
Inductive JsVal : Type :=
| VUndefined
| VLength (n : nat)
| VJson (j : JSON).

(** What a [throw] or a rejected promise carries. *)
Inductive thrown : Type :=
| TypeError
| SyntaxError
| NetworkError (detail : string)
| Reason (text : string).

Inductive Result (A : Type) : Type :=
| Ok (a : A)
| Throw (e : thrown).
Arguments Ok {A} a.
Arguments Throw {A} e.

(** The parts of the JavaScript engine that are used but not modelled:
    everything that touches the representation of a number, and the
    coercions of arbitrary values to a number or to a string. *)
Record Engine : Type := {
  (** [JSON.stringify] of a number. *)
  stringify_number : number -> string;
  (** [ToBoolean] of a number. *)
  ToBoolean_number : number -> bool;
  (** [v > n] for a value [v] out of a JSON text and a literal [n],
      through [ToPrimitive] and [ToNumber]; [None] when the coercion
      throws a TypeError. *)
  GreaterThan : JSON -> nat -> option bool;
  (** [ToString] of a value out of a JSON text, as a template literal
      applies it; [None] when it throws a TypeError. *)
  ToString : JSON -> option string;
  (** [ToString] of a caught error. *)
  ToString_error : thrown -> string;
}.

Variable engine : Engine.

Fixpoint assoc (k : string) (properties : list (string * JSON)) : option JSON :=
  match properties with
  | [] => None
  | (k', v) :: rest => if bool_decide (k' = k) then Some v else assoc k rest
  end.

(** [JSON.stringify] of a parsed value. *)
Fixpoint stringify (j : JSON) : string :=
  match j with
  | JNull => "null"
  | JBool true => "true"
  | JBool false => "false"
  | JNum x => stringify_number engine x
  | JStr s => QuoteJSONString s
  | JArr elements => "[" +:+ join_comma (map stringify elements) +:+ "]"
  | JObj properties =>
      "{" +:+ join_comma
                (map (fun '(k, v) => QuoteJSONString k +:+ ":" +:+ stringify v) properties)
          +:+ "}"
  end.

(** [JSON.stringify] of a run-time value; [undefined] has no JSON
    text and the call returns [undefined] ([None]). *)
Definition JSON_stringify (v : JsVal) : option string :=
  match v with
  | VUndefined => None
  | VLength n => Some (string_of_nat n)
  | VJson j => Some (stringify j)
  end.

(** [JSON.stringify] of an object literal whose property values are
    run-time values: a property whose value is [undefined] is left out. *)
Definition JSON_stringify_object (properties : list (string * JsVal)) : string :=
  "{" +:+ join_comma
            (omap (fun '(k, v) =>
                     (fun text => QuoteJSONString k +:+ ":" +:+ text) <$> JSON_stringify v)
                  properties)
      +:+ "}".

(** A value inside a template literal. *)
Definition template_of_stringified (o : option string) : string :=
  match o with
  | Some text => text
  | None => "undefined"
  end.

Definition ToBoolean (v : JsVal) : bool :=
  match v with
  | VUndefined => false
  | VLength n => negb (n =? 0)
  | VJson JNull => false
  | VJson (JBool b) => b
  | VJson (JNum x) => ToBoolean_number engine x
  | VJson (JStr s) => negb (bool_decide (s = EmptyString))
  | VJson (JArr _) => true
  | VJson (JObj _) => true
  end.

(** [k in j]: a TypeError unless [j] is an object or an array.
    Inherited properties are not modelled; the worker tests only the
    names [username] and [password], which no prototype defines. *)
Definition js_in (k : string) (j : JSON) : Result bool :=
  match j with
  | JObj properties => Ok (bool_decide (is_Some (assoc k properties)))
  | JArr elements =>
      Ok (bool_decide (k = "length")
          || match index_of_key k with
             | Some i => bool_decide (i < length elements)
             | None => false
             end)
  | JNull | JBool _ | JNum _ | JStr _ => Throw TypeError
  end.

Definition of_option (o : option JSON) : JsVal :=
  match o with
  | Some j => VJson j
  | None => VUndefined
  end.

(** [v[k]]: a TypeError on [undefined] and [null], [undefined] for a
    missing property.  Inherited properties are not modelled; the
    worker reads only the names [username], [password], [key],
    [result], [0] and [length]. *)
Definition get_prop (v : JsVal) (k : string) : Result JsVal :=
  match v with
  | VUndefined => Throw TypeError
  | VJson JNull => Throw TypeError
  | VLength _ => Ok VUndefined
  | VJson (JBool _) => Ok VUndefined
  | VJson (JNum _) => Ok VUndefined
  | VJson (JStr s) =>
      if bool_decide (k = "length") then Ok (VLength (String.length s))
      else match index_of_key k with
           | Some i =>
               Ok (match String.get i s with
                   | Some c => VJson (JStr (String c EmptyString))
                   | None => VUndefined
                   end)
           | None => Ok VUndefined
           end
  | VJson (JArr elements) =>
      if bool_decide (k = "length") then Ok (VLength (length elements))
      else match index_of_key k with
           | Some i => Ok (of_option (elements !! i))
           | None => Ok VUndefined
           end
  | VJson (JObj properties) => Ok (of_option (assoc k properties))
  end.

(** [v > n] for a literal [n]. *)
Definition js_gt (v : JsVal) (n : nat) : Result bool :=
  match v with
  | VUndefined => Ok false
  | VLength m => Ok (n <? m)
  | VJson j =>
      match GreaterThan engine j n with
      | Some b => Ok b
      | None => Throw TypeError
      end
  end.

(** [v.substring(from, to)]: only a string has the method. *)
Definition call_substring (v : JsVal) (from to : nat) : Result string :=
  match v with
  | VJson (JStr s) =>
      let a := Nat.min (Nat.min from to) (String.length s) in
      let b := Nat.min (Nat.max from to) (String.length s) in
      Ok (String.substring a (b - a) s)
  | _ => Throw TypeError
  end.

(** ** The platform

    The EdgeWorkers modules the worker imports ([http-request],
    [url-search-params], [create-response], [log]) are not part of the
    repository; they are taken as given. *)

(** The arguments of one [httpRequest] call. *)
Record HttpCall : Type := {
  call_url : string;
  call_method : string;
  call_headers : option Headers;
  call_body : option string;
}.

(** What a sub-request resolves with.  [ok] is the platform's own
    reading of the status (true for the 2xx class); [response_json]
    is what [json()] resolves with, [None] when it rejects. *)
Record HttpResponse : Type := {
  status : Z;
  ok : bool;
  response_headers : Headers;
  response_body : string;
  response_json : option JSON;
}.

(** The inbound request.  [json] is what [request.json()] resolves
    with, [None] when it rejects (no body, or a body that is no JSON). *)
Record Request : Type := {
  method : string;
  getHeaders : Headers;
  json : option JSON;
}.

(** What [createResponse] is given. *)
Record Response : Type := createResponse {
  sent_status : Z;
  sent_headers : Headers;
  sent_body : string;
}.

Record Platform : Type := {
  (** What a sub-request settles with, given the sub-requests made
      before it: an error ([inl]) or a response ([inr]). *)
  network : list HttpCall -> HttpCall -> thrown + HttpResponse;
  (** The query string of a [URLSearchParams] object, by its entries. *)
  URLSearchParams_toString : list (string * string) -> string;
}.

Variable platform : Platform.

(** ** Effects *)

Inductive LogEntry : Type :=
| LogInfo (line : string)
| LogError (line : string).

(** The sub-requests made and the lines logged so far, oldest first. *)
Record State : Type := {
  calls : list HttpCall;
  logs : list LogEntry;
}.

Definition M (A : Type) : Type := State -> Result A * State.

Definition ret {A} (a : A) : M A := fun st => (Ok a, st).

Definition throw {A} (e : thrown) : M A := fun st => (Throw e, st).

Definition bind {A B} (m : M A) (k : A -> M B) : M B :=
  fun st =>
    match m st with
    | (Ok a, st') => k a st'
    | (Throw e, st') => (Throw e, st')
    end.

Definition lift {A} (r : Result A) : M A := fun st => (r, st).

(** [try { m } catch (error) { handler error }]: what [m] did to the
    state before it threw stays done. *)
Definition try_catch {A} (m : M A) (handler : thrown -> M A) : M A :=
  fun st =>
    match m st with
    | (Ok a, st') => (Ok a, st')
    | (Throw e, st') => handler e st'
    end.

Definition Rbind {A B} (r : Result A) (k : A -> Result B) : Result B :=
  match r with
  | Ok a => k a
  | Throw e => Throw e
  end.

Notation "x <- m ;; k" := (bind m (fun x => k))
  (at level 100, m at next level, right associativity).
Notation "m ;;; k" := (bind m (fun _ => k))
  (at level 100, right associativity).
Notation "'let?' x := r 'in' k" := (Rbind r (fun x => k))
  (at level 10, x name, r at level 100, k at level 200).

Definition logged (entry : LogEntry) (st : State) : State :=
  {| calls := calls st; logs := logs st ++ [entry] |}.

Definition called (call : HttpCall) (st : State) : State :=
  {| calls := calls st ++ [call]; logs := logs st |}.

Definition logger_info (line : string) : M unit :=
  fun st => (Ok tt, logged (LogInfo line) st).

Definition logger_error (line : string) : M unit :=
  fun st => (Ok tt, logged (LogError line) st).

(** [await httpRequest(url, {method, headers, body})]. *)
Definition httpRequest (url method : string) (headers : option Headers)
    (body : option string) : M HttpResponse :=
  fun st =>
    let call := {| call_url := url; call_method := method;
                   call_headers := headers; call_body := body |} in
    match network platform (calls st) call with
    | inl e => (Throw e, called call st)
    | inr response => (Ok response, called call st)
    end.

(** [await result.json()]. *)
Definition await_json (result : HttpResponse) : M JSON :=
  match response_json result with
  | Some j => ret j
  | None => throw SyntaxError
  end.

(** ** The worker *)

Definition headersToRemove : list string :=
  [ "host";
    "content-length";
    "transfer-encoding";
    "connection";
    "vary";
    "accept-encoding";
    "content-encoding";
    "keep-alive";
    "Proxy-Authenticate";
    "proxy-authorization";
    "te";
    "trailers";
    "upgrade" ].

Definition UNAME : string := "username".
Definition PASSWD : string := "password".
Definition KEYGENERATOR_URL : string := "https://api.grinwis.com/NoMoreLeaksKey".
Definition KNOWNKEY_URL : string := "https://api.grinwis.com/KnownKey".
Definition COLLECTION : string := "NoMoreLeaks".
Definition KEY : string := "key".
Definition ORIGIN_URL : string := "https://api.grinwis.com/headers".
Definition HIT_HEADER : string := "x-nomoreleaks-hit".

(** [getKeyFromKeyGenerator].  The [try] block yields [Some v] where
    it returns [v] and [None] where control falls out of it; the
    [catch] block falls out too. *)
Definition getKeyFromKeyGenerator (requestBody : list (string * JsVal)) : M JsVal :=
  returned <-
    try_catch
      (result <- httpRequest KEYGENERATOR_URL "POST" None
                   (Some (JSON_stringify_object requestBody)) ;;
       if ok result then
         response <- await_json result ;;
         key <- lift (get_prop (VJson response) KEY) ;;
         preview <- lift (call_substring key 0 5) ;;
         logger_info ("Endpoint generated a key: " +:+ preview +:+ ".....") ;;;
         key <- lift (get_prop (VJson response) KEY) ;;
         ret (Some key)
       else
         logger_error ("Request to " +:+ KEYGENERATOR_URL +:+ " failed with status: "
                       +:+ string_of_Z (status result)) ;;;
         ret None)
      (fun error =>
         logger_error ("There was a problem calling " +:+ KEYGENERATOR_URL +:+ ": "
                       +:+ ToString_error engine error) ;;;
         ret None) ;;
  match returned with
  | Some key => ret key
  | None => ret (VJson JNull)
  end.

(** [keyExists]. *)
Definition keyExists (bindvars : list (string * JsVal)) : M JsVal :=
  let queryString := [("bindVars", JSON_stringify_object bindvars)] in
  let url := KNOWNKEY_URL +:+ "?" +:+ URLSearchParams_toString platform queryString in
  returned <-
    try_catch
      (result <- httpRequest url "GET" None None ;;
       if ok result then
         response <- await_json result ;;
         first <- lift (get_prop (VJson response) "0") ;;
         found <- lift (get_prop first "result") ;;
         logger_info ("key exists: " +:+ template_of_stringified (JSON_stringify found)) ;;;
         first <- lift (get_prop (VJson response) "0") ;;
         found <- lift (get_prop first "result") ;;
         ret (Some found)
       else
         errorResponse <- await_json result ;;
         match ToString engine errorResponse with
         | Some text =>
             logger_error ("Request to " +:+ url +:+ " failed with status: " +:+ text) ;;;
             ret None
         | None => throw TypeError
         end)
      (fun error =>
         logger_error ("There was a problem calling " +:+ url +:+ ": "
                       +:+ ToString_error engine error) ;;;
         ret None) ;;
  match returned with
  | Some found => ret found
  | None => ret (VJson (JBool false))
  end.

(** The header object [originRequest] sends: the request's headers
    after the [forEach] of [delete]s and the assignment of the hit
    header. *)
Definition relayedHeaders (requestHeaders : Headers) (knowKey : JsVal) : Headers :=
  let requestHeaders := foldl (fun headers element => delete element headers)
                              requestHeaders headersToRemove in
  <[HIT_HEADER := [JSON_stringify knowKey]]> requestHeaders.

(** [originRequest]. *)
Definition originRequest (request : Request) (body : JSON) (knowKey : JsVal)
    : M HttpResponse :=
  originResponse <- httpRequest ORIGIN_URL (method request)
                      (Some (relayedHeaders (getHeaders request) knowKey))
                      (JSON_stringify (VJson body)) ;;
  ret originResponse.

(** [request.json().catch(() => null)]. *)
Definition parsedBody (request : Request) : JSON :=
  match json request with
  | Some j => j
  | None => JNull
  end.

Definition hasBody (body : JSON) : bool :=
  match body with
  | JNull => false
  | _ => true
  end.

Definition hasCredentials (body : JSON) : Result bool :=
  if hasBody body then
    let? hasName := js_in UNAME body in
    if hasName then js_in PASSWD body else Ok false
  else Ok false.

Definition bodyIsValid (body : JSON) : Result bool :=
  let? credentials := hasCredentials body in
  if credentials then
    let? uname := get_prop (VJson body) UNAME in
    let? unameLength := get_prop uname "length" in
    let? longEnough := js_gt unameLength 1 in
    if longEnough then
      let? passwd := get_prop (VJson body) PASSWD in
      let? passwdLength := get_prop passwd "length" in
      js_gt passwdLength 2
    else Ok false
  else Ok false.

(** The object literal [{uname: body[UNAME], passwd: body[PASSWD]}]. *)
Definition keyRequestBody (body : JSON) : Result (list (string * JsVal)) :=
  let? uname := get_prop (VJson body) UNAME in
  let? passwd := get_prop (VJson body) PASSWD in
  Ok [("uname", uname); ("passwd", passwd)].

(** The value of [knownKey] when the relay starts (lines 67 to 97):
    [false] unless the body is valid, a key comes back and the lookup
    answers. *)
Definition leakFlag (body : JSON) : M JsVal :=
  valid <- lift (bodyIsValid body) ;;
  if valid then
    requestBody <- lift (keyRequestBody body) ;;
    key <- getKeyFromKeyGenerator requestBody ;;
    if ToBoolean key then
      let queryString := [("@collection", VJson (JStr COLLECTION)); ("key", key)] in
      keyExists queryString
    else ret (VJson (JBool false))
  else ret (VJson (JBool false)).

Definition warningHeaders : Headers :=
  {[ "Powered-By" := [Some "Akamai EdgeWorkers - No More Leaks Module"] ]}.

Definition warningBody : string :=
  "<html><body><p>Something wrong with your account, Please contact helpdesk.</p></body></html>".

(** The choice of the response, once the origin has answered (lines
    105 to 126).  [Promise.reject(text)] is [throw (Reason text)]. *)
Definition respond (knownKey : JsVal) (originResponse : HttpResponse) : M Response :=
  if ToBoolean knownKey && ok originResponse then
    ret (createResponse 200 warningHeaders warningBody)
  else if ok originResponse then
    ret (createResponse (status originResponse) (response_headers originResponse)
           (response_body originResponse))
  else
    throw (Reason ("failed sub-request: " +:+ string_of_Z (status originResponse))).

(** The relay and what follows it (lines 99 to 126). *)
Definition relayAndRespond (request : Request) (body : JSON) (knownKey : JsVal)
    : M Response :=
  originResponse <- originRequest request body knownKey ;;
  logger_info ("Origin response: " +:+ string_of_Z (status originResponse)) ;;;
  respond knownKey originResponse.

(** [responseProvider]. *)
Definition responseProvider (request : Request) : M Response :=
  let body := parsedBody request in
  knownKey <- leakFlag body ;;
  relayAndRespond request body knownKey.

(** The state an invocation starts in. *)
Definition start : State := {| calls := []; logs := [] |}.

(** The sub-request [originRequest] makes. *)
Definition originCall (request : Request) (body : JSON) (knowKey : JsVal) : HttpCall :=
  {| call_url := ORIGIN_URL;
     call_method := method request;
     call_headers := Some (relayedHeaders (getHeaders request) knowKey);
     call_body := JSON_stringify (VJson body) |}.

(** The sub-request [getKeyFromKeyGenerator] makes. *)
Definition keygenCall (requestBody : list (string * JsVal)) : HttpCall :=
  {| call_url := KEYGENERATOR_URL;
     call_method := "POST";
     call_headers := None;
     call_body := Some (JSON_stringify_object requestBody) |}.

(** The sub-request [keyExists] makes. *)
Definition lookupCall (bindvars : list (string * JsVal)) : HttpCall :=
  {| call_url := KNOWNKEY_URL +:+ "?"
                 +:+ URLSearchParams_toString platform
                       [("bindVars", JSON_stringify_object bindvars)];
     call_method := "GET";
     call_headers := None;
     call_body := None |}.

End Worker.

Arguments JSON number : clear implicits.
Arguments JsVal number : clear implicits.
Arguments Engine number : clear implicits.
Arguments HttpResponse number : clear implicits.
Arguments Request number : clear implicits.
Arguments Platform number : clear implicits.
Arguments Ok {A} a.
Arguments Throw {A} e.

(** ** A platform to run the worker on

    For running the worker on concrete requests: JSON texts whose
    numbers are integers, the query string serializer of the URL
    standard, and networks given by the replies of the three services. *)

(** An engine for JSON texts whose numbers are integers.  It treats
    [null], booleans and numbers as JavaScript does.  The coercion of
    a string or an array to a number needs a parser of numeric
    literals, and that of an array to a string a recursion over its
    elements; this engine gives up on them ([None]), and none of the
    runs below asks for one. *)
Definition integerEngine : Engine Z := {|
  stringify_number := string_of_Z;
  ToBoolean_number := fun z => negb (z =? 0)%Z;
  GreaterThan := fun j n =>
    match j with
    | JNum z => Some (Z.of_nat n <? z)%Z
    | JBool b => Some (n <? (if b then 1 else 0))
    | JNull => Some false
    | _ => None
    end;
  ToString := fun j =>
    match j with
    | JNull => Some "null"
    | JBool true => Some "true"
    | JBool false => Some "false"
    | JNum z => Some (string_of_Z z)
    | JStr s => Some s
    | JArr _ => None
    | JObj properties =>
        match assoc "toString" properties with
        | Some _ => None
        | None => Some "[object Object]"
        end
    end;
  ToString_error := fun e =>
    match e with
    | TypeError => "TypeError"
    | SyntaxError => "SyntaxError"
    | NetworkError detail => "Error: " +:+ detail
    | Reason text => text
    end;
|}.

Definition hex_upper (n : nat) : ascii :=
  if n <? 10 then ascii_of_nat (48 + n) else ascii_of_nat (55 + n).

Definition urlencode_byte (n : nat) : string :=
  if n =? 32 then "+"
  else if (n =? 42) || (n =? 45) || (n =? 46) || (n =? 95)
          || ((48 <=? n) && (n <=? 57))
          || ((65 <=? n) && (n <=? 90))
          || ((97 <=? n) && (n <=? 122))
  then String (ascii_of_nat n) EmptyString
  else String (ascii_of_nat 37)
         (String (hex_upper (n / 16)) (String (hex_upper (n mod 16)) EmptyString)).

(** One code unit below 256, through its UTF-8 bytes. *)
Definition urlencode_code_unit (c : ascii) : string :=
  let n := nat_of_ascii c in
  if n <? 128 then urlencode_byte n
  else urlencode_byte (192 + n / 64) +:+ urlencode_byte (128 + n mod 64).

Fixpoint urlencode (s : string) : string :=
  match s with
  | EmptyString => EmptyString
  | String c s' => urlencode_code_unit c +:+ urlencode s'
  end.

Fixpoint urlencoded_serialize (entries : list (string * string)) : string :=
  match entries with
  | [] => EmptyString
  | [(name, value)] => urlencode name +:+ "=" +:+ urlencode value
  | (name, value) :: rest =>
      urlencode name +:+ "=" +:+ urlencode value +:+ "&" +:+ urlencoded_serialize rest
  end.

Definition isPrefix (p s : string) : bool := bool_decide (String.prefix p s = true).

(** The network in which the key generator, the lookup service and
    the origin each settle in a fixed way. *)
Definition serviceNetwork {number : Type}
    (keygen lookup origin : thrown + HttpResponse number)
    (made : list HttpCall) (call : HttpCall) : thrown + HttpResponse number :=
  if bool_decide (call_url call = KEYGENERATOR_URL) then keygen
  else if isPrefix KNOWNKEY_URL (call_url call) then lookup
  else origin.

Definition servicePlatform {number : Type}
    (keygen lookup origin : thrown + HttpResponse number) : Platform number :=
  {| network := serviceNetwork keygen lookup origin;
     URLSearchParams_toString := urlencoded_serialize |}.

(** A response with a JSON body; it is successful when its status
    is in the 2xx class. *)
Definition jsonResponse {number : Type} (code : Z) (reply : JSON number)
    : HttpResponse number :=
  {| status := code;
     ok := bool_decide (200 <= code < 300)%Z;
     response_headers := {[ "content-type" := [Some "application/json"] ]};
     response_body := EmptyString;
     response_json := Some reply |}.

(** A response with a body that is no JSON. *)
Definition textResponse {number : Type} (code : Z) (text : string)
    : HttpResponse number :=
  {| status := code;
     ok := bool_decide (200 <= code < 300)%Z;
     response_headers := {[ "content-type" := [Some "text/plain"] ]};
     response_body := text;
     response_json := None |}.

Definition jsonReply {number : Type} (code : Z) (reply : JSON number)
    : thrown + HttpResponse number :=
  inr (jsonResponse code reply).

Definition textReply {number : Type} (code : Z) (text : string)
    : thrown + HttpResponse number :=
  inr (textResponse code text).

Definition keyReply {number : Type} : thrown + HttpResponse number :=
  jsonReply 200 (JObj [("key", JStr "XYZ123")]).

Definition loginRequest {number : Type} (body : option (JSON number)) : Request number :=
  {| method := "POST";
     getHeaders := {[ "host" := [Some "shop.example"];
                      "content-type" := [Some "application/json"] ]};
     json := body |}.

Definition credentials {number : Type} (uname passwd : JSON number) : JSON number :=
  JObj [("username", uname); ("password", passwd)].

(** The scenarios of the specification: the login [ab] / [abc], the
    key [XYZ123], and a lookup that answers with [result]. *)
Definition scenarioRequest : Request Z :=
  loginRequest (Some (credentials (JStr "ab") (JStr "abc"))).

Definition lookupReply (result : bool) : thrown + HttpResponse Z :=
  jsonReply 200 (JArr [JObj [("result", JBool result)]]).

Definition hitPlatform : Platform Z :=
  servicePlatform keyReply (lookupReply true) (textReply 200 "OK").

Definition noHitPlatform : Platform Z :=
  servicePlatform keyReply (lookupReply false) (textReply 200 "OK").

(** The origin is down. *)
Definition originDownPlatform : Platform Z :=
  servicePlatform keyReply (lookupReply false) (textReply 503 "Service Unavailable").

(** The key generator answers 500. *)
Definition keygenDownPlatform : Platform Z :=
  servicePlatform (textReply 500 "Internal Server Error") (lookupReply true)
    (textReply 200 "OK").

(** The key generator answers with an empty key. *)
Definition emptyKeyPlatform : Platform Z :=
  servicePlatform (jsonReply 200 (JObj [("key", JStr EmptyString)])) (lookupReply true)
    (textReply 200 "OK").

(** The key generator answers with a key that is a number. *)
Definition numericKeyPlatform : Platform Z :=
  servicePlatform (jsonReply 200 (JObj [("key", JNum 5%Z)])) (lookupReply true)
    (textReply 200 "OK").

(** The lookup answers with an empty array. *)
Definition emptyLookupPlatform : Platform Z :=
  servicePlatform keyReply (jsonReply 200 (JArr [])) (textReply 200 "OK").

(** The lookup answers with a [result] that is a string. *)
Definition textResultPlatform : Platform Z :=
  servicePlatform keyReply (jsonReply 200 (JArr [JObj [("result", JStr "yes")]]))
    (textReply 200 "OK").

(** The key request and the bind variables of the scenarios. *)
Definition scenarioKeyRequest : list (string * JsVal Z) :=
  [("uname", VJson (JStr "ab")); ("passwd", VJson (JStr "abc"))].

Definition scenarioBindVars : list (string * JsVal Z) :=
  [("@collection", VJson (JStr COLLECTION)); ("key", VJson (JStr "XYZ123"))].

(** The origin cannot be reached. *)
Definition originUnreachablePlatform : Platform Z :=
  servicePlatform keyReply (lookupReply false) (inl (NetworkError "connection refused")).

(** The header a call carries under a name. *)
Definition headerOf (call : HttpCall) (name : string) : option (list (option string)) :=
  match call_headers call with
  | Some headers => headers !! name
  | None => None
  end.

(** ** Failures of the key generator *)

(** The value of the reply's [key] field, when the reply is an object
    that has one. *)
Definition key_field {number : Type} (reply : JSON number) : option (JSON number) :=
  match reply with
  | JObj properties => assoc KEY properties
  | _ => None
  end.

(** The ways the call to the key generator fails: the sub-request
    itself fails, the status is no success, the body is no JSON, or
    the reply has no [key] field. *)
Inductive keygenFailure {number : Type} : thrown + HttpResponse number -> Prop :=
| keygen_network_error (e : thrown) :
    keygenFailure (inl e)
| keygen_bad_status (result : HttpResponse number) :
    ok result = false ->
    keygenFailure (inr result)
| keygen_parse_error (result : HttpResponse number) :
    ok result = true ->
    response_json result = None ->
    keygenFailure (inr result)
| keygen_missing_key (result : HttpResponse number) (reply : JSON number) :
    ok result = true ->
    response_json result = Some reply ->
    key_field reply = None ->
    keygenFailure (inr result).

(** ** Lengths and failures of the lookup *)

(** The [length] of a string or of an array. *)
Definition lengthOf {number : Type} (j : JSON number) : option nat :=
  match j with
  | JStr s => Some (String.length s)
  | JArr elements => Some (length elements)
  | _ => None
  end.

(** The reply has nothing to read a [result] from: [response[0]]
    throws, or is [undefined] or [null]. *)
Definition noFirstElement {number : Type} (reply : JSON number) : bool :=
  match get_prop (VJson reply) "0" with
  | Throw _ => true
  | Ok VUndefined => true
  | Ok (VJson JNull) => true
  | Ok _ => false
  end.

(** The failures of the lookup that end in [false]: the sub-request
    itself fails, the status is no success, the body is no JSON, or
    the reply has no first element. *)
Inductive lookupFailure {number : Type} : thrown + HttpResponse number -> Prop :=
| lookup_network_error (e : thrown) :
    lookupFailure (inl e)
| lookup_bad_status (result : HttpResponse number) :
    ok result = false ->
    lookupFailure (inr result)
| lookup_parse_error (result : HttpResponse number) :
    ok result = true ->
    response_json result = None ->
    lookupFailure (inr result)
| lookup_no_first_element (result : HttpResponse number) (reply : JSON number) :
    ok result = true ->
    response_json result = Some reply ->
    noFirstElement reply = true ->
    lookupFailure (inr result).

(** The sub-requests one invocation may make, in order: none, the
    origin alone, the key generator and the origin, or all three. *)
Inductive callPattern {number : Type} (engine : Engine number) (platform : Platform number)
    (request : Request number) : list HttpCall -> Prop :=
| pattern_none :
    callPattern engine platform request []
| pattern_origin (knownKey : JsVal number) :
    callPattern engine platform request
      [originCall engine request (parsedBody request) knownKey]
| pattern_keygen_origin (requestBody : list (string * JsVal number))
    (knownKey : JsVal number) :
    callPattern engine platform request
      [keygenCall engine requestBody;
       originCall engine request (parsedBody request) knownKey]
| pattern_all (requestBody bindvars : list (string * JsVal number))
    (knownKey : JsVal number) :
    callPattern engine platform request
      [keygenCall engine requestBody;
       lookupCall engine platform bindvars;
       originCall engine request (parsedBody request) knownKey].

(** ** What the relay sends *)

Section Properties.

Context {number : Type} (engine : Engine number) (platform : Platform number).

Implicit Types (request : Request number) (body : JSON number).
Implicit Types (knownKey : JsVal number) (st : State).

(** Running two steps in sequence, when the first one returns. *)
Lemma bind_Ok {A B} (m : M A) (k : A -> M B) st a st' :
  m st = (Ok a, st') -> bind m k st = k a st'.
Proof. intros Hm. unfold bind. now rewrite Hm. Qed.

Lemma bind_Throw {A B} (m : M A) (k : A -> M B) st e st' :
  m st = (Throw e, st') -> bind m k st = (Throw e, st').
Proof. intros Hm. unfold bind. now rewrite Hm. Qed.

(** [originRequest] makes exactly one sub-request, [originCall], and
    settles the way the network settles it. *)
Lemma originRequest_run request body knownKey st :
  originRequest engine platform request body knownKey st =
    (match network platform (calls st) (originCall engine request body knownKey) with
     | inl e => Throw e
     | inr originResponse => Ok originResponse
     end,
     called (originCall engine request body knownKey) st).
Proof.
  unfold originRequest, bind, httpRequest, originCall, ret.
  now destruct (network platform _ _).
Qed.

(** Choosing the response makes no sub-request. *)
Lemma respond_calls knownKey originResponse st :
  calls (snd (respond engine knownKey originResponse st)) = calls st.
Proof.
  unfold respond.
  destruct (ToBoolean engine knownKey && ok originResponse); [reflexivity|].
  now destruct (ok originResponse).
Qed.

(** Whatever the flag, and however the origin settles, the relay
    stage adds the one sub-request to the origin and nothing else. *)
Lemma relayAndRespond_calls request body knownKey st :
  calls (snd (relayAndRespond engine platform request body knownKey st)) =
    calls st ++ [originCall engine request body knownKey].
Proof.
  unfold relayAndRespond, bind. rewrite originRequest_run.
  destruct (network platform _ _) as [e|originResponse]; [reflexivity|].
  cbn [logger_info]. now rewrite respond_calls.
Qed.

(** When the origin answers, the relay stage logs the status and
    hands the answer to [respond]. *)
Lemma relayAndRespond_answered request body knownKey st originResponse :
  network platform (calls st) (originCall engine request body knownKey)
    = inr originResponse ->
  relayAndRespond engine platform request body knownKey st =
    respond engine knownKey originResponse
      (logged (LogInfo ("Origin response: " +:+ string_of_Z (status originResponse)))
         (called (originCall engine request body knownKey) st)).
Proof.
  intros Hnet. unfold relayAndRespond, bind. rewrite originRequest_run, Hnet.
  reflexivity.
Qed.

(** A header of the relayed request: the hit header carries the
    stringified flag, a name spelled as in [headersToRemove] is gone,
    every other name keeps its values. *)
Lemma relayedHeaders_lookup (requestHeaders : Headers) knownKey (name : string) :
  relayedHeaders engine requestHeaders knownKey !! name =
    if decide (name = HIT_HEADER) then Some [JSON_stringify engine knownKey]
    else if decide (name ∈ headersToRemove) then None
    else requestHeaders !! name.
Proof.
  unfold relayedHeaders. rewrite lookup_insert.
  destruct (decide (HIT_HEADER = name)) as [<-|Hne].
  - now rewrite decide_True.
  - rewrite decide_False by congruence.
    generalize headersToRemove as names. intros names.
    revert requestHeaders. induction names as [|element names IH]; intros requestHeaders.
    + rewrite decide_False by (apply not_elem_of_nil). reflexivity.
    + cbn [foldl]. rewrite IH.
      destruct (decide (name ∈ names)) as [Hin|Hnotin].
      * rewrite decide_True by (apply elem_of_cons; now right). reflexivity.
      * destruct (decide (name = element)) as [->|Hother].
        -- rewrite decide_True by (apply elem_of_cons; now left).
           apply lookup_delete_eq.
        -- rewrite decide_False by (rewrite elem_of_cons; tauto).
           now apply lookup_delete_ne.
Qed.

(** ** The response *)

(** C1: when the leak flag resolved to [true] and the origin response
    is successful, [responseProvider] resolves with status 200, the
    marker header and the fixed warning page; nothing of the origin
    response is in it. *)
Theorem responseProvider_hit_serves_warning request st st1 originResponse :
  leakFlag engine platform (parsedBody request) st = (Ok (VJson (JBool true)), st1) ->
  network platform (calls st1)
    (originCall engine request (parsedBody request) (VJson (JBool true)))
    = inr originResponse ->
  ok originResponse = true ->
  responseProvider engine platform request st =
    (Ok (createResponse 200 warningHeaders warningBody),
     logged (LogInfo ("Origin response: " +:+ string_of_Z (status originResponse)))
       (called (originCall engine request (parsedBody request) (VJson (JBool true))) st1)).
Proof.
  intros Hflag Hnet Hok. unfold responseProvider.
  rewrite (bind_Ok _ _ _ _ _ Hflag).
  rewrite (relayAndRespond_answered _ _ _ _ _ Hnet).
  unfold respond. cbn [ToBoolean]. now rewrite Hok.
Qed.

(** C7: when the leak flag is [false] and the origin response is
    successful, [responseProvider] resolves with the origin's status,
    headers and body. *)
Theorem responseProvider_no_hit_passes_origin request st st1 originResponse :
  leakFlag engine platform (parsedBody request) st = (Ok (VJson (JBool false)), st1) ->
  network platform (calls st1)
    (originCall engine request (parsedBody request) (VJson (JBool false)))
    = inr originResponse ->
  ok originResponse = true ->
  responseProvider engine platform request st =
    (Ok (createResponse (status originResponse) (response_headers originResponse)
           (response_body originResponse)),
     logged (LogInfo ("Origin response: " +:+ string_of_Z (status originResponse)))
       (called (originCall engine request (parsedBody request) (VJson (JBool false))) st1)).
Proof.
  intros Hflag Hnet Hok. unfold responseProvider.
  rewrite (bind_Ok _ _ _ _ _ Hflag).
  rewrite (relayAndRespond_answered _ _ _ _ _ Hnet).
  unfold respond. cbn [ToBoolean andb]. now rewrite Hok.
Qed.

(** C8: when the origin response is not successful, whatever the leak
    flag, [responseProvider] rejects, and the reason is the text
    [failed sub-request: ] followed by the origin's status code. *)
Theorem responseProvider_origin_failure_rejects request st knownKey st1 originResponse :
  leakFlag engine platform (parsedBody request) st = (Ok knownKey, st1) ->
  network platform (calls st1) (originCall engine request (parsedBody request) knownKey)
    = inr originResponse ->
  ok originResponse = false ->
  responseProvider engine platform request st =
    (Throw (Reason ("failed sub-request: " +:+ string_of_Z (status originResponse))),
     logged (LogInfo ("Origin response: " +:+ string_of_Z (status originResponse)))
       (called (originCall engine request (parsedBody request) knownKey) st1)).
Proof.
  intros Hflag Hnet Hok. unfold responseProvider.
  rewrite (bind_Ok _ _ _ _ _ Hflag).
  rewrite (relayAndRespond_answered _ _ _ _ _ Hnet).
  unfold respond. rewrite Hok, andb_false_r. reflexivity.
Qed.

(** ** A body that is absent or no JSON *)

(** C10: when [request.json()] rejects, the worker goes straight to
    the relay with the flag [false]; the one sub-request it makes goes
    to the origin and its body is the four characters [null]. *)
Theorem responseProvider_unparsable_body_relays_null request st :
  json request = None ->
  responseProvider engine platform request st =
    relayAndRespond engine platform request JNull (VJson (JBool false)) st
  /\ calls (snd (responseProvider engine platform request st)) =
       calls st ++
       [ {| call_url := ORIGIN_URL;
            call_method := method request;
            call_headers :=
              Some (relayedHeaders engine (getHeaders request) (VJson (JBool false)));
            call_body := Some "null" |} ].
Proof.
  intros Hjson.
  assert (Hrun : responseProvider engine platform request st =
                 relayAndRespond engine platform request JNull (VJson (JBool false)) st).
  { unfold responseProvider, parsedBody. rewrite Hjson. reflexivity. }
  split; [exact Hrun|].
  rewrite Hrun, relayAndRespond_calls. reflexivity.
Qed.

(** ** Failures of the key generator are absorbed *)

(** A reply without a [key] field: reading the field throws, or
    yields [undefined]. *)
Lemma key_field_None_get_prop (reply : JSON number) :
  key_field reply = None ->
  get_prop (VJson reply) KEY = Throw TypeError
  \/ get_prop (VJson reply) KEY = Ok VUndefined.
Proof.
  destruct reply as [|b|x|s|elements|properties]; intros Hfield.
  - now left.
  - now right.
  - now right.
  - now right.
  - now right.
  - right. cbn in Hfield. cbn [get_prop]. now rewrite Hfield.
Qed.

(** However the call to the key generator fails, the function
    returns [null], having made its one sub-request and logged one
    error line. *)
Lemma getKeyFromKeyGenerator_failure requestBody st :
  keygenFailure (network platform (calls st) (keygenCall engine requestBody)) ->
  exists line,
    getKeyFromKeyGenerator engine platform requestBody st =
      (Ok (VJson JNull),
       logged (LogError line) (called (keygenCall engine requestBody) st)).
Proof.
  intros Hfail.
  unfold getKeyFromKeyGenerator, bind, try_catch, httpRequest.
  fold (keygenCall engine requestBody).
  remember (network platform (calls st) (keygenCall engine requestBody)) as outcome.
  destruct Hfail as [e|result Hok|result Hok Hjson|result reply Hok Hjson Hfield].
  - eexists. reflexivity.
  - rewrite Hok. eexists. reflexivity.
  - rewrite Hok. unfold await_json. rewrite Hjson. eexists. reflexivity.
  - rewrite Hok. unfold await_json. rewrite Hjson.
    destruct (key_field_None_get_prop reply Hfield) as [Hget|Hget];
      cbn [ret lift]; rewrite Hget; eexists; reflexivity.
Qed.

(** A valid body has both fields to build the key request from. *)
Lemma bodyIsValid_keyRequestBody body :
  bodyIsValid engine body = Ok true ->
  exists requestBody, keyRequestBody body = Ok requestBody.
Proof.
  unfold bodyIsValid, keyRequestBody, Rbind.
  destruct (hasCredentials body) as [[|]|]; try discriminate.
  destruct (get_prop (VJson body) UNAME) as [uname|]; try discriminate.
  destruct (get_prop uname "length") as [unameLength|]; try discriminate.
  destruct (js_gt engine unameLength 1) as [[|]|]; try discriminate.
  destruct (get_prop (VJson body) PASSWD) as [passwd|]; try discriminate.
  intros _. eexists. reflexivity.
Qed.

(** C5: for a valid body, however the call to the key generator
    fails (the sub-request fails, the status is no success, the body
    is no JSON, the reply has no [key] field), the function returns
    [null] and the worker goes on to the relay with the flag [false]:
    its sub-requests are the one to the key generator and the one to
    the origin. *)
Theorem keygen_failure_still_relays request st requestBody :
  bodyIsValid engine (parsedBody request) = Ok true ->
  keyRequestBody (parsedBody request) = Ok requestBody ->
  keygenFailure (network platform (calls st) (keygenCall engine requestBody)) ->
  exists st1,
    getKeyFromKeyGenerator engine platform requestBody st = (Ok (VJson JNull), st1)
    /\ calls st1 = calls st ++ [keygenCall engine requestBody]
    /\ responseProvider engine platform request st =
         relayAndRespond engine platform request (parsedBody request)
           (VJson (JBool false)) st1
    /\ calls (snd (responseProvider engine platform request st)) =
         calls st ++
         [ keygenCall engine requestBody;
           originCall engine request (parsedBody request) (VJson (JBool false)) ].
Proof.
  intros Hvalid Hbody Hfail.
  destruct (getKeyFromKeyGenerator_failure requestBody st Hfail) as [line Hkey].
  eexists. split; [exact Hkey|]. split; [reflexivity|].
  assert (Hrun : responseProvider engine platform request st =
                 relayAndRespond engine platform request (parsedBody request)
                   (VJson (JBool false))
                   (logged (LogError line) (called (keygenCall engine requestBody) st))).
  { unfold responseProvider, leakFlag, bind at 1 2 3, lift.
    rewrite Hvalid, Hbody.
    unfold bind at 1. rewrite Hkey. reflexivity. }
  split; [exact Hrun|].
  rewrite Hrun, relayAndRespond_calls. cbn [logged called calls].
  now rewrite <- app_assoc.
Qed.

(** ** Validation *)

(** A body that fails validation without throwing: the flag stays
    [false] and the worker goes straight to the relay, so the one
    sub-request it makes goes to the origin. *)
Lemma invalid_body_relays request st :
  bodyIsValid engine (parsedBody request) = Ok false ->
  leakFlag engine platform (parsedBody request) st = (Ok (VJson (JBool false)), st)
  /\ responseProvider engine platform request st =
       relayAndRespond engine platform request (parsedBody request)
         (VJson (JBool false)) st
  /\ calls (snd (responseProvider engine platform request st)) =
       calls st ++ [originCall engine request (parsedBody request) (VJson (JBool false))].
Proof.
  intros Hvalid.
  assert (Hflag : leakFlag engine platform (parsedBody request) st
                  = (Ok (VJson (JBool false)), st)).
  { unfold leakFlag, bind, lift. now rewrite Hvalid. }
  assert (Hrun : responseProvider engine platform request st =
                 relayAndRespond engine platform request (parsedBody request)
                   (VJson (JBool false)) st).
  { unfold responseProvider. now rewrite (bind_Ok _ _ _ _ _ Hflag). }
  repeat split; [exact Hflag|exact Hrun|].
  now rewrite Hrun, relayAndRespond_calls.
Qed.

(** What validation throws leaves [responseProvider] at once: no
    sub-request is made, not even the relay. *)
Lemma validation_throw_aborts request st e :
  bodyIsValid engine (parsedBody request) = Throw e ->
  responseProvider engine platform request st = (Throw e, st).
Proof.
  intros Hvalid. unfold responseProvider, leakFlag, bind, lift. now rewrite Hvalid.
Qed.

(** Unless validation returns [true], the stage that computes the
    flag makes no sub-request: neither the key generator nor the
    lookup is asked. *)
Lemma leakFlag_without_valid_body body st :
  bodyIsValid engine body <> Ok true ->
  calls (snd (leakFlag engine platform body st)) = calls st.
Proof.
  intros Hvalid. unfold leakFlag, bind, lift.
  destruct (bodyIsValid engine body) as [[|]|e]; [congruence|reflexivity|reflexivity].
Qed.

(** An object without one of the two fields is not valid. *)
Lemma missing_field_invalid (properties : list (string * JSON number)) :
  assoc UNAME properties = None \/ assoc PASSWD properties = None ->
  bodyIsValid engine (JObj properties) = Ok false.
Proof.
  intros Hmissing. unfold bodyIsValid, hasCredentials, Rbind. cbn [hasBody js_in].
  destruct (assoc UNAME properties) as [uname|] eqn:Huname.
  - destruct Hmissing as [?|Hpasswd]; [discriminate|].
    rewrite bool_decide_eq_true_2 by eauto.
    rewrite Hpasswd. rewrite bool_decide_eq_false_2; [reflexivity|].
    intros [? ?]; discriminate.
  - rewrite bool_decide_eq_false_2; [reflexivity|]. intros [? ?]; discriminate.
Qed.

(** An object whose two fields are strings, the user name of at most
    one character or the password of at most two, is not valid. *)
Lemma short_credentials_invalid (properties : list (string * JSON number))
    (uname passwd : string) :
  assoc UNAME properties = Some (JStr uname) ->
  assoc PASSWD properties = Some (JStr passwd) ->
  String.length uname <= 1 \/ String.length passwd <= 2 ->
  bodyIsValid engine (JObj properties) = Ok false.
Proof.
  intros Huname Hpasswd Hshort.
  unfold bodyIsValid, hasCredentials, Rbind. cbn [hasBody js_in get_prop].
  rewrite Huname, Hpasswd.
  rewrite !bool_decide_eq_true_2 by eauto.
  cbn [of_option get_prop js_gt].
  rewrite !bool_decide_eq_true_2 by reflexivity.
  cbn [js_gt].
  destruct (1 <? String.length uname) eqn:Hu; [|reflexivity].
  destruct Hshort as [Hs|Hs].
  - apply Nat.ltb_lt in Hu. lia.
  - f_equal. apply Nat.ltb_ge. exact Hs.
Qed.

(** ** The lookup never throws *)

(** Whatever the network does, [keyExists] returns: everything that
    can throw is inside its [try] block. *)
Lemma keyExists_never_throws bindvars st :
  exists found st', keyExists engine platform bindvars st = (Ok found, st').
Proof.
  unfold keyExists, bind, try_catch, httpRequest.
  destruct (network platform _ _) as [e|result]; [eexists _, _; reflexivity|].
  destruct (ok result).
  - unfold await_json.
    destruct (response_json result) as [response|]; [|eexists _, _; reflexivity].
    cbn [ret lift].
    destruct (get_prop (VJson response) "0") as [first|]; [|eexists _, _; reflexivity].
    destruct (get_prop first "result") as [found|]; eexists _, _; reflexivity.
  - unfold await_json.
    destruct (response_json result) as [errorResponse|]; [|eexists _, _; reflexivity].
    cbn [ret].
    destruct (ToString engine errorResponse); eexists _, _; reflexivity.
Qed.

(** The failures of the lookup that are absorbed into [false]: the
    sub-request fails, the status is no success, or the body of a
    successful response is no JSON. *)
Lemma keyExists_absorbed_failure bindvars st :
  match network platform (calls st) (lookupCall engine platform bindvars) with
  | inl _ => True
  | inr result => ok result = false \/ response_json result = None
  end ->
  exists st', keyExists engine platform bindvars st = (Ok (VJson (JBool false)), st').
Proof.
  unfold keyExists, bind, try_catch, httpRequest.
  fold (lookupCall engine platform bindvars).
  destruct (network platform _ _) as [e|result]; [intros _; eexists; reflexivity|].
  unfold await_json. intros [Hok|Hjson].
  - rewrite Hok.
    destruct (response_json result) as [errorResponse|]; [|eexists; reflexivity].
    cbn [ret]. destruct (ToString engine errorResponse); eexists; reflexivity.
  - rewrite Hjson. destruct (ok result); eexists; reflexivity.
Qed.

(** What a successful lookup returns is what it reads at
    [response[0]["result"]], whatever that is. *)
Lemma keyExists_returns_what_it_reads bindvars st result response first found :
  network platform (calls st) (lookupCall engine platform bindvars) = inr result ->
  ok result = true ->
  response_json result = Some response ->
  get_prop (VJson response) "0" = Ok first ->
  get_prop first "result" = Ok found ->
  keyExists engine platform bindvars st =
    (Ok found,
     logged (LogInfo ("key exists: " +:+ template_of_stringified (JSON_stringify engine found)))
       (called (lookupCall engine platform bindvars) st)).
Proof.
  intros Hnet Hok Hjson Hfirst Hfound.
  unfold keyExists, bind, try_catch, httpRequest.
  fold (lookupCall engine platform bindvars).
  rewrite Hnet, Hok. unfold await_json. rewrite Hjson.
  cbn [ret lift]. rewrite Hfirst, Hfound. reflexivity.
Qed.

End Properties.

(** ** Where the worker leaves its documented behaviour *)

Section Deviations.

Context {number : Type} (engine : Engine number).

Implicit Types (st : State) (origin keygen : thrown + HttpResponse number).

(** C9: validation throws.  On a body that parses to a number, a
    string or a boolean the [in] test throws a TypeError; on an object
    whose user name is [null] the read of [length] does.  The error
    leaves [responseProvider] before any sub-request is made. *)
Theorem bodyIsValid_throws (platform : Platform number) (x : number) (s : string)
    (b : bool) st :
  bodyIsValid engine (JNum x) = Throw TypeError
  /\ bodyIsValid engine (JStr s) = Throw TypeError
  /\ bodyIsValid engine (JBool b) = Throw TypeError
  /\ bodyIsValid engine (credentials JNull (JStr "secret")) = Throw TypeError
  /\ responseProvider engine platform (loginRequest (Some (JNum x))) st
       = (Throw TypeError, st).
Proof. repeat split; reflexivity. Qed.

(** C2: a body with a [null] user name and the two-character
    password [ab].  Validation throws at the read of [length], so
    [responseProvider] rejects with a TypeError and makes no
    sub-request at all: the relay to the origin is skipped too. *)
Theorem short_password_null_username_aborts (platform : Platform number) st :
  let request := loginRequest (Some (credentials JNull (JStr "ab"))) in
  responseProvider engine platform request st = (Throw TypeError, st)
  /\ calls (snd (responseProvider engine platform request st)) = calls st.
Proof. split; reflexivity. Qed.

(** C3: a successful lookup reply whose first element has no boolean
    [result].  For the reply [[{}]] the function returns [undefined],
    for [[{"result":"yes"}]] it returns the string [yes]; in neither
    case does it return [false]. *)
Theorem keyExists_returns_unchecked_result keygen origin bindvars st :
  let withoutResult := servicePlatform keygen (jsonReply 200 (JArr [JObj []])) origin in
  let withText :=
    servicePlatform keygen (jsonReply 200 (JArr [JObj [("result", JStr "yes")]])) origin in
  keyExists engine withoutResult bindvars st =
    (Ok VUndefined,
     logged (LogInfo "key exists: undefined")
       (called (lookupCall engine withoutResult bindvars) st))
  /\ keyExists engine withText bindvars st =
       (Ok (VJson (JStr "yes")),
        logged (LogInfo ("key exists: " +:+ QuoteJSONString "yes"))
          (called (lookupCall engine withText bindvars) st)).
Proof.
  cbv zeta. split.
  - apply keyExists_returns_what_it_reads
      with (result := jsonResponse 200 (JArr [JObj []]))
           (response := JArr [JObj []]) (first := VJson (JObj [])); reflexivity.
  - apply keyExists_returns_what_it_reads
      with (result := jsonResponse 200 (JArr [JObj [("result", JStr "yes")]]))
           (response := JArr [JObj [("result", JStr "yes")]])
           (first := VJson (JObj [("result", JStr "yes")])); reflexivity.
Qed.

(** The run of the scenario of the specification (user name [ab],
    password [abc], key [XYZ123]) up to the relay, for a lookup reply
    whose first element reads [found] at [result]. *)
Lemma scenario_flag origin (reply : JSON number) (first found : JsVal number) :
  get_prop (VJson reply) "0" = Ok first ->
  get_prop first "result" = Ok found ->
  let platform := servicePlatform keyReply (jsonReply 200 reply) origin in
  let body := credentials (JStr "ab") (JStr "abc") in
  let requestBody := [("uname", VJson (JStr "ab")); ("passwd", VJson (JStr "abc"))] in
  let bindvars := [("@collection", VJson (JStr COLLECTION)); ("key", VJson (JStr "XYZ123"))] in
  exists st1,
    leakFlag engine platform body start = (Ok found, st1)
    /\ calls st1 = [keygenCall engine requestBody; lookupCall engine platform bindvars].
Proof.
  intros Hfirst Hfound platform body requestBody bindvars.
  assert (Hkey : getKeyFromKeyGenerator engine platform requestBody start =
                 (Ok (VJson (JStr "XYZ123")),
                  logged (LogInfo "Endpoint generated a key: XYZ12.....")
                    (called (keygenCall engine requestBody) start))) by reflexivity.
  eexists. split.
  - unfold leakFlag.
    rewrite (bind_Ok _ _ _ _ _
               (eq_refl : lift (bodyIsValid engine body) start = (Ok true, start))).
    rewrite (bind_Ok _ _ _ _ _
               (eq_refl : lift (keyRequestBody body) start = (Ok requestBody, start))).
    rewrite (bind_Ok _ _ _ _ _ Hkey).
    change (ToBoolean engine (VJson (JStr "XYZ123"))) with true. cbv iota.
    apply keyExists_returns_what_it_reads
      with (result := jsonResponse 200 reply) (response := reply) (first := first);
      try reflexivity; assumption.
  - reflexivity.
Qed.

(** C6: the value of the hit header is the stringified result of the
    lookup, not a stringified boolean.  In the scenario of the
    specification with the lookup reply [[{"result":"yes"}]] the
    origin is sent the value [yes] between quotation marks; with the
    reply [[{}]] it is sent the value [undefined]. *)
Theorem hit_header_carries_unchecked_result origin :
  let request := loginRequest (Some (credentials (JStr "ab") (JStr "abc"))) in
  let body := credentials (JStr "ab") (JStr "abc") in
  let withText :=
    servicePlatform keyReply (jsonReply 200 (JArr [JObj [("result", JStr "yes")]])) origin in
  let withoutResult := servicePlatform keyReply (jsonReply 200 (JArr [JObj []])) origin in
  (last (calls (snd (responseProvider engine withText request start)))
     = Some (originCall engine request body (VJson (JStr "yes")))
   /\ headerOf (originCall engine request body (VJson (JStr "yes"))) HIT_HEADER
     = Some [Some (String quote_char ("yes" +:+ String quote_char EmptyString))])
  /\ (last (calls (snd (responseProvider engine withoutResult request start)))
        = Some (originCall engine request body VUndefined)
      /\ headerOf (originCall engine request body VUndefined) HIT_HEADER = Some [None]).
Proof.
  cbv zeta. split; (split; [|reflexivity]).
  - destruct (scenario_flag origin (JArr [JObj [("result", JStr "yes")]])
                (VJson (JObj [("result", JStr "yes")])) (VJson (JStr "yes"))
                eq_refl eq_refl) as (st1 & Hflag & _).
    unfold responseProvider.
    change (parsedBody (loginRequest ?b))
      with (credentials (number:=number) (JStr "ab") (JStr "abc")).
    rewrite (bind_Ok _ _ _ _ _ Hflag), relayAndRespond_calls. apply last_snoc.
  - destruct (scenario_flag origin (JArr [JObj []]) (VJson (JObj [])) VUndefined
                eq_refl eq_refl) as (st1 & Hflag & _).
    unfold responseProvider.
    change (parsedBody (loginRequest ?b))
      with (credentials (number:=number) (JStr "ab") (JStr "abc")).
    rewrite (bind_Ok _ _ _ _ _ Hflag), relayAndRespond_calls. apply last_snoc.
Qed.

(** C4: the header [proxy-authenticate] is relayed.  The list holds
    the name as [Proxy-Authenticate], and [delete] takes the key as it
    is spelled, so the header under the lower-case name stays in what
    is sent to the origin. *)
Theorem proxy_authenticate_is_relayed (platform : Platform number)
    (body : JSON number) (knownKey : JsVal number) st :
  let request :=
    {| method := "POST";
       getHeaders := {[ "proxy-authenticate" := [Some "Basic realm=edge"] ]};
       json := Some body |} in
  calls (snd (originRequest engine platform request body knownKey st))
    = calls st ++ [originCall engine request body knownKey]
  /\ headerOf (originCall engine request body knownKey) "proxy-authenticate"
     = Some [Some "Basic realm=edge"].
Proof.
  cbv zeta. split.
  - now rewrite originRequest_run.
  - unfold headerOf, originCall. cbn [call_headers getHeaders].
    rewrite relayedHeaders_lookup. reflexivity.
Qed.

End Deviations.

(** ** Validation, case by case *)

Section Coverage.

Context {number : Type} (engine : Engine number) (platform : Platform number).

Implicit Types (request : Request number) (body : JSON number).
Implicit Types (knownKey : JsVal number) (st : State).

(** Reading [length] off a string or an array. *)
Lemma get_prop_length (j : JSON number) (n : nat) :
  lengthOf j = Some n ->
  get_prop (VJson j) "length" = Ok (VLength n).
Proof.
  destruct j; cbn [lengthOf]; intros Hlen; try discriminate;
    injection Hlen as <-; reflexivity.
Qed.

(** X1: for an object whose [username] and [password] are strings or
    arrays, validation never throws and accepts exactly when the
    user name is longer than 1 and the password longer than 2. *)
Theorem bodyIsValid_by_lengths (properties : list (string * JSON number))
    (uname passwd : JSON number) (n m : nat) :
  assoc UNAME properties = Some uname ->
  assoc PASSWD properties = Some passwd ->
  lengthOf uname = Some n ->
  lengthOf passwd = Some m ->
  bodyIsValid engine (JObj properties) = Ok ((1 <? n) && (2 <? m)).
Proof.
  intros Huname Hpasswd Hn Hm.
  unfold bodyIsValid, hasCredentials, Rbind. cbn [hasBody js_in get_prop].
  rewrite Huname, Hpasswd.
  rewrite !bool_decide_eq_true_2 by eauto.
  cbn [of_option].
  rewrite (get_prop_length _ _ Hn), (get_prop_length _ _ Hm). cbn [js_gt].
  now destruct (1 <? n).
Qed.

(** X2: a user name that is a number or a boolean has no [length]:
    validation returns [false] without throwing, whatever the
    password field holds. *)
Theorem bodyIsValid_lengthless_username (properties : list (string * JSON number))
    (uname passwd : JSON number) :
  assoc UNAME properties = Some uname ->
  assoc PASSWD properties = Some passwd ->
  (exists x, uname = JNum x) \/ (exists b, uname = JBool b) ->
  bodyIsValid engine (JObj properties) = Ok false.
Proof.
  intros Huname Hpasswd Hkind.
  unfold bodyIsValid, hasCredentials, Rbind. cbn [hasBody js_in get_prop].
  rewrite Huname, Hpasswd.
  rewrite !bool_decide_eq_true_2 by eauto.
  cbn [of_option].
  destruct Hkind as [[x ->]|[b ->]]; reflexivity.
Qed.

(** X3: a [null] body, an array, or an object without one of the two
    fields is handled without throwing: the flag stays [false] and the
    only sub-request is the relay to the origin, with the hit header
    [false] and the body serialized again. *)
Theorem responseProvider_without_credentials request st :
  parsedBody request = JNull
  \/ (exists elements, parsedBody request = JArr elements)
  \/ (exists properties,
        parsedBody request = JObj properties
        /\ (assoc UNAME properties = None \/ assoc PASSWD properties = None)) ->
  responseProvider engine platform request st =
    relayAndRespond engine platform request (parsedBody request) (VJson (JBool false)) st
  /\ calls (snd (responseProvider engine platform request st)) =
       calls st ++
       [ {| call_url := ORIGIN_URL;
            call_method := method request;
            call_headers :=
              Some (<[HIT_HEADER := [Some "false"]]>
                      (foldl (fun headers element => delete element headers)
                             (getHeaders request) headersToRemove));
            call_body := Some (stringify engine (parsedBody request)) |} ].
Proof.
  intros Hshape.
  assert (Hvalid : bodyIsValid engine (parsedBody request) = Ok false).
  { destruct Hshape as [->|[[elements ->]|(properties & -> & Hmissing)]].
    - reflexivity.
    - reflexivity.
    - now apply missing_field_invalid. }
  destruct (invalid_body_relays engine platform request st Hvalid) as (_ & Hrun & Hcalls).
  split; [exact Hrun|]. rewrite Hcalls. reflexivity.
Qed.

(** ** The key generator client *)

(** X4: [getKeyFromKeyGenerator] never throws.  It makes its one
    sub-request, logs one line, and returns [null] or a string. *)
Theorem getKeyFromKeyGenerator_null_or_string requestBody st :
  exists key entry,
    getKeyFromKeyGenerator engine platform requestBody st =
      (Ok key, logged entry (called (keygenCall engine requestBody) st))
    /\ (key = VJson JNull \/ exists s, key = VJson (JStr s)).
Proof.
  unfold getKeyFromKeyGenerator, bind, try_catch, httpRequest.
  fold (keygenCall engine requestBody).
  destruct (network platform _ _) as [e|result].
  { eexists _, _. split; [reflexivity|now left]. }
  destruct (ok result).
  - unfold await_json.
    destruct (response_json result) as [response|].
    + cbn [ret lift].
      destruct (get_prop (VJson response) KEY) as [key|e].
      * destruct key as [|n|[|b|x|s|elements|properties]];
          eexists _, _; (split; [reflexivity|]); first [now left|right; eauto].
      * eexists _, _. split; [reflexivity|now left].
    + eexists _, _. split; [reflexivity|now left].
  - eexists _, _. split; [reflexivity|now left].
Qed.

(** The first [k] characters of a string are at most [k]. *)
Lemma length_substring_prefix (k : nat) (s : string) :
  String.length (String.substring 0 k s) <= k.
Proof.
  revert s. induction k as [|k IH]; intros s.
  - destruct s; cbn; lia.
  - destruct s as [|c s]; cbn; [lia|]. specialize (IH s). lia.
Qed.

(** A successful reply with a string under [key]: the run of
    [getKeyFromKeyGenerator]. *)
Lemma getKeyFromKeyGenerator_returns_key requestBody st result properties (key : string) :
  network platform (calls st) (keygenCall engine requestBody) = inr result ->
  ok result = true ->
  response_json result = Some (JObj properties) ->
  assoc KEY properties = Some (JStr key) ->
  getKeyFromKeyGenerator engine platform requestBody st =
    (Ok (VJson (JStr key)),
     logged (LogInfo ("Endpoint generated a key: "
                      +:+ String.substring 0 (Nat.min 5 (String.length key)) key
                      +:+ "....."))
       (called (keygenCall engine requestBody) st)).
Proof.
  intros Hnet Hok Hjson Hkey.
  unfold getKeyFromKeyGenerator, bind, try_catch, httpRequest.
  fold (keygenCall engine requestBody).
  rewrite Hnet, Hok. unfold await_json. rewrite Hjson.
  cbn [ret lift get_prop]. rewrite Hkey. cbn [of_option call_substring].
  cbn [Nat.min Nat.max]. rewrite Nat.sub_0_r. reflexivity.
Qed.

(** X5: when the key generator answers successfully with an object
    whose [key] is a string, that string is returned, and the line
    logged shows its first five characters at most. *)
Theorem getKeyFromKeyGenerator_success requestBody st result properties (key : string) :
  network platform (calls st) (keygenCall engine requestBody) = inr result ->
  ok result = true ->
  response_json result = Some (JObj properties) ->
  assoc KEY properties = Some (JStr key) ->
  let preview := String.substring 0 (Nat.min 5 (String.length key)) key in
  getKeyFromKeyGenerator engine platform requestBody st =
    (Ok (VJson (JStr key)),
     logged (LogInfo ("Endpoint generated a key: " +:+ preview +:+ "....."))
       (called (keygenCall engine requestBody) st))
  /\ String.length preview <= 5.
Proof.
  intros Hnet Hok Hjson Hkey preview. split.
  - now apply getKeyFromKeyGenerator_returns_key with (result := result)
                                                       (properties := properties).
  - unfold preview.
    etransitivity; [apply length_substring_prefix|]. apply Nat.le_min_l.
Qed.

(** X6: a successful reply whose [key] is anything but a string
    (a number, a boolean, [null], an array, an object) yields [null]:
    the preview for the log throws, and the [catch] absorbs it. *)
Theorem getKeyFromKeyGenerator_key_not_a_string requestBody st result properties
    (key : JSON number) :
  network platform (calls st) (keygenCall engine requestBody) = inr result ->
  ok result = true ->
  response_json result = Some (JObj properties) ->
  assoc KEY properties = Some key ->
  (forall s, key <> JStr s) ->
  getKeyFromKeyGenerator engine platform requestBody st =
    (Ok (VJson JNull),
     logged (LogError ("There was a problem calling " +:+ KEYGENERATOR_URL +:+ ": "
                       +:+ ToString_error engine TypeError))
       (called (keygenCall engine requestBody) st)).
Proof.
  intros Hnet Hok Hjson Hkey Hkind.
  unfold getKeyFromKeyGenerator, bind, try_catch, httpRequest.
  fold (keygenCall engine requestBody).
  rewrite Hnet, Hok. unfold await_json. rewrite Hjson.
  cbn [ret lift get_prop]. rewrite Hkey. cbn [of_option].
  destruct key as [|b|x|s|elements|fields]; try reflexivity.
  now destruct (Hkind s).
Qed.

(** ** The lookup client *)

(** X7: [keyExists] never throws.  Whatever the network does, it
    makes its one sub-request, logs one line and returns a value. *)
Theorem keyExists_one_call_one_line bindvars st :
  exists found entry,
    keyExists engine platform bindvars st =
      (Ok found, logged entry (called (lookupCall engine platform bindvars) st)).
Proof.
  unfold keyExists, bind, try_catch, httpRequest.
  fold (lookupCall engine platform bindvars).
  destruct (network platform _ _) as [e|result]; [eexists _, _; reflexivity|].
  unfold await_json.
  destruct (ok result), (response_json result) as [response|];
    try (eexists _, _; reflexivity); cbn [ret lift].
  - destruct (get_prop (VJson response) "0") as [first|]; [|eexists _, _; reflexivity].
    destruct (get_prop first "result") as [found|]; eexists _, _; reflexivity.
  - destruct (ToString engine response); eexists _, _; reflexivity.
Qed.

(** X8: when the lookup answers successfully with an array whose
    first element is an object with a boolean [result], that boolean
    is returned and logged. *)
Theorem keyExists_boolean_result bindvars st result properties rest (b : bool) :
  network platform (calls st) (lookupCall engine platform bindvars) = inr result ->
  ok result = true ->
  response_json result = Some (JArr (JObj properties :: rest)) ->
  assoc "result" properties = Some (JBool b) ->
  keyExists engine platform bindvars st =
    (Ok (VJson (JBool b)),
     logged (LogInfo ("key exists: " +:+ (if b then "true" else "false")))
       (called (lookupCall engine platform bindvars) st)).
Proof.
  intros Hnet Hok Hjson Hresult.
  rewrite (keyExists_returns_what_it_reads engine platform bindvars st result
             (JArr (JObj properties :: rest)) (VJson (JObj properties))
             (VJson (JBool b)) Hnet Hok Hjson eq_refl).
  - now destruct b.
  - cbn [get_prop]. now rewrite Hresult.
Qed.

(** X9: the failures of the lookup that end in [false]: a failed
    sub-request, a status that is no success, a body that is no JSON,
    and a reply with no first element (such as [null], [[]] or
    [[null]]).  One error line is logged. *)
Theorem keyExists_failure_returns_false bindvars st :
  lookupFailure (network platform (calls st) (lookupCall engine platform bindvars)) ->
  exists line,
    keyExists engine platform bindvars st =
      (Ok (VJson (JBool false)),
       logged (LogError line) (called (lookupCall engine platform bindvars) st)).
Proof.
  intros Hfail.
  unfold keyExists, bind, try_catch, httpRequest.
  fold (lookupCall engine platform bindvars).
  remember (network platform (calls st) (lookupCall engine platform bindvars)) as outcome.
  destruct Hfail as [e|result Hok|result Hok Hjson|result reply Hok Hjson Hfirst].
  - eexists. reflexivity.
  - rewrite Hok. unfold await_json.
    destruct (response_json result) as [errorResponse|]; [|eexists; reflexivity].
    cbn [ret]. destruct (ToString engine errorResponse); eexists; reflexivity.
  - rewrite Hok. unfold await_json. rewrite Hjson. eexists. reflexivity.
  - rewrite Hok. unfold await_json. rewrite Hjson. cbn [ret lift].
    unfold noFirstElement in Hfirst.
    destruct (get_prop (VJson reply) "0") as [[|n|[|b|x|s|elements|properties]]|e];
      try discriminate; eexists; reflexivity.
Qed.

(** ** The headers of the relay *)

(** X10: no name spelled as in [headersToRemove] is a header of the
    relayed request, whatever the request and the flag. *)
Theorem relayedHeaders_removes_listed (requestHeaders : Headers) knownKey :
  Forall (fun name => relayedHeaders engine requestHeaders knownKey !! name = None)
    headersToRemove.
Proof.
  unfold headersToRemove.
  repeat constructor; rewrite relayedHeaders_lookup; reflexivity.
Qed.

(** X11: a header whose name is neither in [headersToRemove] nor the
    hit header reaches the origin with the values it came with. *)
Theorem relayedHeaders_keeps_others (requestHeaders : Headers) knownKey (name : string) :
  name ∉ headersToRemove ->
  name <> HIT_HEADER ->
  relayedHeaders engine requestHeaders knownKey !! name = requestHeaders !! name.
Proof.
  intros Hlisted Hhit. rewrite relayedHeaders_lookup.
  now rewrite !decide_False.
Qed.

(** X12: what the client sends under the hit header, or under a name
    of [headersToRemove], has no influence on what the origin gets. *)
Theorem relayedHeaders_ignores_inbound (requestHeaders : Headers) knownKey
    (name : string) (values : list (option string)) :
  name = HIT_HEADER \/ name ∈ headersToRemove ->
  relayedHeaders engine (<[name := values]> requestHeaders) knownKey
    = relayedHeaders engine requestHeaders knownKey.
Proof.
  intros Hname. apply map_eq. intros other.
  rewrite !relayedHeaders_lookup.
  destruct (decide (other = HIT_HEADER)) as [|Hhit]; [reflexivity|].
  destruct (decide (other ∈ headersToRemove)) as [|Hlisted]; [reflexivity|].
  apply lookup_insert_ne. destruct Hname as [->| Hin]; congruence.
Qed.

(** X13: relaying is idempotent on the headers: filtering and
    annotating what was already filtered and annotated, with the same
    flag, changes nothing. *)
Theorem relayedHeaders_idempotent (requestHeaders : Headers) knownKey :
  relayedHeaders engine (relayedHeaders engine requestHeaders knownKey) knownKey
    = relayedHeaders engine requestHeaders knownKey.
Proof.
  apply map_eq. intros name. rewrite !relayedHeaders_lookup.
  destruct (decide (name = HIT_HEADER)); [reflexivity|].
  now destruct (decide (name ∈ headersToRemove)).
Qed.

(** ** The invocation as a whole *)

(** Each client returns, having made its one sub-request. *)
Lemma getKeyFromKeyGenerator_run requestBody st :
  exists key st1,
    getKeyFromKeyGenerator engine platform requestBody st = (Ok key, st1)
    /\ calls st1 = calls st ++ [keygenCall engine requestBody].
Proof.
  unfold getKeyFromKeyGenerator, bind, try_catch, httpRequest.
  fold (keygenCall engine requestBody).
  destruct (network platform _ _) as [e|result]; [eexists _, _; split; reflexivity|].
  unfold await_json.
  destruct (ok result), (response_json result) as [response|];
    try (eexists _, _; split; reflexivity); cbn [ret lift].
  destruct (get_prop (VJson response) KEY) as [key|e];
    [|eexists _, _; split; reflexivity].
  destruct (call_substring key 0 5); eexists _, _; split; reflexivity.
Qed.

Lemma keyExists_run bindvars st :
  exists found st1,
    keyExists engine platform bindvars st = (Ok found, st1)
    /\ calls st1 = calls st ++ [lookupCall engine platform bindvars].
Proof.
  unfold keyExists, bind, try_catch, httpRequest.
  fold (lookupCall engine platform bindvars).
  destruct (network platform _ _) as [e|result]; [eexists _, _; split; reflexivity|].
  unfold await_json.
  destruct (ok result), (response_json result) as [response|];
    try (eexists _, _; split; reflexivity); cbn [ret lift].
  - destruct (get_prop (VJson response) "0") as [first|];
      [|eexists _, _; split; reflexivity].
    destruct (get_prop first "result") as [found|]; eexists _, _; split; reflexivity.
  - destruct (ToString engine response); eexists _, _; split; reflexivity.
Qed.

(** The stage that computes the flag: either validation throws and
    nothing has happened, or the stage returns, having asked the key
    generator at most once and then the lookup at most once. *)
Lemma leakFlag_run body st :
  (exists e, bodyIsValid engine body = Throw e
             /\ leakFlag engine platform body st = (Throw e, st))
  \/ (exists knownKey st1 made,
        leakFlag engine platform body st = (Ok knownKey, st1)
        /\ calls st1 = calls st ++ made
        /\ (made = []
            \/ (exists requestBody, made = [keygenCall engine requestBody])
            \/ (exists requestBody bindvars,
                  made = [keygenCall engine requestBody;
                          lookupCall engine platform bindvars]))).
Proof.
  unfold leakFlag, bind at 1, lift at 1.
  destruct (bodyIsValid engine body) as [[|]|e] eqn:Hvalid.
  - right.
    destruct (bodyIsValid_keyRequestBody engine body Hvalid) as [requestBody Hbody].
    unfold bind at 1, lift. rewrite Hbody.
    destruct (getKeyFromKeyGenerator_run requestBody st) as (key & st1 & Hkey & Hcalls1).
    unfold bind. rewrite Hkey.
    destruct (ToBoolean engine key).
    + destruct (keyExists_run [("@collection", VJson (JStr COLLECTION)); ("key", key)] st1)
        as (found & st2 & Hfound & Hcalls2).
      exists found, st2, [keygenCall engine requestBody;
                          lookupCall engine platform
                            [("@collection", VJson (JStr COLLECTION)); ("key", key)]].
      split; [exact Hfound|]. split; [|eauto].
      rewrite Hcalls2, Hcalls1, <- app_assoc. reflexivity.
    + exists (VJson (JBool false)), st1, [keygenCall engine requestBody].
      split; [reflexivity|]. split; [exact Hcalls1|eauto].
  - right. exists (VJson (JBool false)), st, [].
    split; [reflexivity|]. split; [now rewrite app_nil_r|now left].
  - left. exists e. split; reflexivity.
Qed.

(** X14: one invocation makes at most three sub-requests, and only
    in this order: the key generator, the lookup, the origin.  The
    lookup is never asked without the key generator, and nothing
    follows the relay to the origin. *)
Theorem responseProvider_call_pattern request st :
  exists made,
    calls (snd (responseProvider engine platform request st)) = calls st ++ made
    /\ callPattern engine platform request made.
Proof.
  unfold responseProvider.
  destruct (leakFlag_run (parsedBody request) st)
    as [(e & _ & Hflag)|(knownKey & st1 & made & Hflag & Hcalls & Hmade)].
  - rewrite (bind_Throw _ _ _ _ _ Hflag). exists [].
    split; [now rewrite app_nil_r|constructor].
  - rewrite (bind_Ok _ _ _ _ _ Hflag), relayAndRespond_calls, Hcalls, <- app_assoc.
    eexists. split; [reflexivity|].
    destruct Hmade as [->|[[requestBody ->]|(requestBody & bindvars & ->)]];
      constructor.
Qed.

(** X15: once validation has returned, nothing stops the relay:
    whatever the key generator and the lookup do, the flag stage
    returns and the last sub-request of the invocation is the one to
    the origin. *)
Theorem responseProvider_relays_once_validated request st (valid : bool) :
  bodyIsValid engine (parsedBody request) = Ok valid ->
  exists knownKey st1,
    leakFlag engine platform (parsedBody request) st = (Ok knownKey, st1)
    /\ responseProvider engine platform request st =
         relayAndRespond engine platform request (parsedBody request) knownKey st1
    /\ last (calls (snd (responseProvider engine platform request st))) =
         Some (originCall engine request (parsedBody request) knownKey).
Proof.
  intros Hvalid.
  destruct (leakFlag_run (parsedBody request) st)
    as [(e & Hthrow & _)|(knownKey & st1 & made & Hflag & _ & _)]; [congruence|].
  exists knownKey, st1. split; [exact Hflag|].
  assert (Hrun : responseProvider engine platform request st =
                 relayAndRespond engine platform request (parsedBody request)
                   knownKey st1).
  { unfold responseProvider. now rewrite (bind_Ok _ _ _ _ _ Hflag). }
  split; [exact Hrun|].
  rewrite Hrun, relayAndRespond_calls. apply last_snoc.
Qed.

(** X16: [responseProvider] resolves only when the origin has
    answered successfully, and then with the warning page if the flag
    is truthy and with the origin's status, headers and body if not. *)
Theorem responseProvider_resolves_only_on_origin_success request st response st' :
  responseProvider engine platform request st = (Ok response, st') ->
  exists knownKey st1 originResponse,
    leakFlag engine platform (parsedBody request) st = (Ok knownKey, st1)
    /\ network platform (calls st1)
         (originCall engine request (parsedBody request) knownKey) = inr originResponse
    /\ ok originResponse = true
    /\ response =
         if ToBoolean engine knownKey
         then createResponse 200 warningHeaders warningBody
         else createResponse (status originResponse) (response_headers originResponse)
                (response_body originResponse).
Proof.
  unfold responseProvider, bind at 1.
  destruct (leakFlag engine platform (parsedBody request) st)
    as [[knownKey|e] st1] eqn:Hflag; [|discriminate].
  unfold relayAndRespond, bind. rewrite originRequest_run.
  destruct (network platform _ _) as [e|originResponse] eqn:Hnet; [discriminate|].
  cbn [logger_info]. unfold respond.
  destruct (ok originResponse) eqn:Hok.
  - intros Hrun. exists knownKey, st1, originResponse.
    repeat split; try assumption.
    destruct (ToBoolean engine knownKey); cbn [andb] in Hrun;
      now injection Hrun as <- _.
  - rewrite andb_false_r. discriminate.
Qed.

(** X17: an error of the sub-request to the origin is not absorbed:
    [responseProvider] rejects with that very error, right after the
    sub-request. *)
Theorem responseProvider_origin_error_propagates request st knownKey st1 (e : thrown) :
  leakFlag engine platform (parsedBody request) st = (Ok knownKey, st1) ->
  network platform (calls st1)
    (originCall engine request (parsedBody request) knownKey) = inl e ->
  responseProvider engine platform request st =
    (Throw e, called (originCall engine request (parsedBody request) knownKey) st1).
Proof.
  intros Hflag Hnet. unfold responseProvider.
  rewrite (bind_Ok _ _ _ _ _ Hflag).
  unfold relayAndRespond, bind. now rewrite originRequest_run, Hnet.
Qed.

(** X18: with a successful origin response the choice depends on the
    truthiness of the flag alone: any truthy value (such as a
    non-empty string) gives the warning page, any falsy one (such as
    [undefined]) the origin's response. *)
Theorem responseProvider_decides_by_truthiness request st knownKey st1 originResponse :
  leakFlag engine platform (parsedBody request) st = (Ok knownKey, st1) ->
  network platform (calls st1)
    (originCall engine request (parsedBody request) knownKey) = inr originResponse ->
  ok originResponse = true ->
  responseProvider engine platform request st =
    (Ok (if ToBoolean engine knownKey
         then createResponse 200 warningHeaders warningBody
         else createResponse (status originResponse) (response_headers originResponse)
                (response_body originResponse)),
     logged (LogInfo ("Origin response: " +:+ string_of_Z (status originResponse)))
       (called (originCall engine request (parsedBody request) knownKey) st1)).
Proof.
  intros Hflag Hnet Hok. unfold responseProvider.
  rewrite (bind_Ok _ _ _ _ _ Hflag).
  rewrite (relayAndRespond_answered _ _ _ _ _ _ _ Hnet).
  unfold respond. rewrite Hok. now destruct (ToBoolean engine knownKey).
Qed.

(** X19: an empty key is no key.  When the key generator answers
    successfully with the empty string, the lookup is skipped: the
    flag is [false] and the sub-requests are the one to the key
    generator and the one to the origin. *)
Theorem responseProvider_empty_key_skips_lookup request st requestBody result properties :
  bodyIsValid engine (parsedBody request) = Ok true ->
  keyRequestBody (parsedBody request) = Ok requestBody ->
  network platform (calls st) (keygenCall engine requestBody) = inr result ->
  ok result = true ->
  response_json result = Some (JObj properties) ->
  assoc KEY properties = Some (JStr EmptyString) ->
  exists st1,
    leakFlag engine platform (parsedBody request) st = (Ok (VJson (JBool false)), st1)
    /\ calls (snd (responseProvider engine platform request st)) =
         calls st ++
         [ keygenCall engine requestBody;
           originCall engine request (parsedBody request) (VJson (JBool false)) ].
Proof.
  intros Hvalid Hbody Hnet Hok Hjson Hkey.
  pose proof (getKeyFromKeyGenerator_returns_key requestBody st result properties
                EmptyString Hnet Hok Hjson Hkey) as Hrun.
  eexists.
  assert (Hflag : leakFlag engine platform (parsedBody request) st =
                  (Ok (VJson (JBool false)),
                   logged (LogInfo "Endpoint generated a key: .....")
                     (called (keygenCall engine requestBody) st))).
  { unfold leakFlag, bind, lift. rewrite Hvalid, Hbody, Hrun. reflexivity. }
  split; [exact Hflag|].
  unfold responseProvider.
  rewrite (bind_Ok _ _ _ _ _ Hflag), relayAndRespond_calls. cbn [logged called calls].
  now rewrite <- app_assoc.
Qed.

(** X20: the whole of a checked login.  For a valid body, a key
    generator that answers with a non-empty string and a lookup that
    answers with a boolean, the invocation makes the three
    sub-requests in order, the lookup is asked for the collection
    [NoMoreLeaks] and that key, and the origin is told the boolean as
    the text [true] or [false]. *)
Theorem responseProvider_checked_login request st requestBody keyResult keyProperties
    (key : string) lookupResult lookupProperties rest (b : bool) :
  let body := parsedBody request in
  let bindvars := [("@collection", VJson (JStr COLLECTION)); ("key", VJson (JStr key))] in
  bodyIsValid engine body = Ok true ->
  keyRequestBody body = Ok requestBody ->
  network platform (calls st) (keygenCall engine requestBody) = inr keyResult ->
  ok keyResult = true ->
  response_json keyResult = Some (JObj keyProperties) ->
  assoc KEY keyProperties = Some (JStr key) ->
  key <> EmptyString ->
  network platform (calls st ++ [keygenCall engine requestBody])
    (lookupCall engine platform bindvars) = inr lookupResult ->
  ok lookupResult = true ->
  response_json lookupResult = Some (JArr (JObj lookupProperties :: rest)) ->
  assoc "result" lookupProperties = Some (JBool b) ->
  (exists st2,
     leakFlag engine platform body st = (Ok (VJson (JBool b)), st2)
     /\ responseProvider engine platform request st =
          relayAndRespond engine platform request body (VJson (JBool b)) st2)
  /\ calls (snd (responseProvider engine platform request st)) =
       calls st ++
       [ keygenCall engine requestBody;
         lookupCall engine platform bindvars;
         originCall engine request body (VJson (JBool b)) ]
  /\ headerOf (originCall engine request body (VJson (JBool b))) HIT_HEADER =
       Some [Some (if b then "true" else "false")].
Proof.
  intros body bindvars Hvalid Hbody Hknet Hkok Hkjson Hkey Hnonempty
    Hlnet Hlok Hljson Hresult.
  pose proof (getKeyFromKeyGenerator_returns_key requestBody st keyResult keyProperties
                key Hknet Hkok Hkjson Hkey) as Hkeyrun.
  set (st1 := logged (LogInfo ("Endpoint generated a key: "
                               +:+ String.substring 0 (Nat.min 5 (String.length key)) key
                               +:+ "....."))
                (called (keygenCall engine requestBody) st)) in Hkeyrun.
  assert (Hfound : keyExists engine platform bindvars st1 =
                   (Ok (VJson (JBool b)),
                    logged (LogInfo ("key exists: " +:+ template_of_stringified
                                       (JSON_stringify engine (VJson (JBool b)))))
                      (called (lookupCall engine platform bindvars) st1))).
  { apply keyExists_returns_what_it_reads
      with (result := lookupResult) (response := JArr (JObj lookupProperties :: rest))
           (first := VJson (JObj lookupProperties));
      try assumption; try reflexivity.
    cbn [get_prop]. now rewrite Hresult. }
  assert (Hflag : leakFlag engine platform body st =
                  (Ok (VJson (JBool b)),
                   logged (LogInfo ("key exists: " +:+ template_of_stringified
                                      (JSON_stringify engine (VJson (JBool b)))))
                     (called (lookupCall engine platform bindvars) st1))).
  { unfold leakFlag, bind, lift. rewrite Hvalid, Hbody, Hkeyrun. cbn [ToBoolean].
    rewrite bool_decide_eq_false_2 by assumption. cbn [negb]. exact Hfound. }
  assert (Hrun : responseProvider engine platform request st =
                 relayAndRespond engine platform request body (VJson (JBool b))
                   (logged (LogInfo ("key exists: " +:+ template_of_stringified
                                       (JSON_stringify engine (VJson (JBool b)))))
                      (called (lookupCall engine platform bindvars) st1))).
  { unfold responseProvider. fold body. now rewrite (bind_Ok _ _ _ _ _ Hflag). }
  split; [eexists; split; [exact Hflag|exact Hrun]|]. split.
  - rewrite Hrun, relayAndRespond_calls. cbn [logged called calls st1].
    unfold st1. cbn [logged called calls]. now rewrite <- !app_assoc.
  - unfold headerOf, originCall. cbn [call_headers].
    rewrite relayedHeaders_lookup. now destruct b.
Qed.

End Coverage.

(** ** The scenarios of the specification *)

(** The key generator returns the key [XYZ123], the lookup returns
    [[{"result":true}]] and the origin answers 200: the response is
    the warning page. *)
Lemma scenario_hit_serves_warning :
  fst (responseProvider integerEngine hitPlatform scenarioRequest start)
    = Ok (createResponse 200 warningHeaders warningBody).
Proof.
  rewrite (responseProvider_hit_serves_warning integerEngine hitPlatform
             scenarioRequest start
             (snd (leakFlag integerEngine hitPlatform (parsedBody scenarioRequest) start))
             (textResponse 200 "OK")).
  - reflexivity.
  - vm_compute. reflexivity.
  - vm_compute. reflexivity.
  - reflexivity.
Defined.

(** The lookup returns [[{"result":false}]] and the origin answers
    200 with the body [OK]: the response is the origin's. *)
Lemma scenario_no_hit_passes_origin :
  fst (responseProvider integerEngine noHitPlatform scenarioRequest start)
    = Ok (createResponse 200 {[ "content-type" := [Some "text/plain"] ]} "OK").
Proof.
  rewrite (responseProvider_no_hit_passes_origin integerEngine noHitPlatform
             scenarioRequest start
             (snd (leakFlag integerEngine noHitPlatform (parsedBody scenarioRequest) start))
             (textResponse 200 "OK")).
  - reflexivity.
  - vm_compute. reflexivity.
  - vm_compute. reflexivity.
  - reflexivity.
Defined.

(** The body is no JSON and the origin answers 503: the invocation
    is rejected and the reason names the status 503. *)
Lemma scenario_origin_down_rejects :
  fst (responseProvider integerEngine originDownPlatform (loginRequest None) start)
    = Throw (Reason "failed sub-request: 503").
Proof.
  rewrite (responseProvider_origin_failure_rejects integerEngine originDownPlatform
             (loginRequest None) start (VJson (JBool false)) start
             (textResponse 503 "Service Unavailable")).
  - reflexivity.
  - reflexivity.
  - vm_compute. reflexivity.
  - reflexivity.
Defined.

(** The body is no JSON: the one sub-request goes to the origin, with
    the body [null]. *)
Lemma scenario_unparsable_body_relays_null :
  calls (snd (responseProvider integerEngine noHitPlatform (loginRequest None) start))
    = [ {| call_url := ORIGIN_URL;
           call_method := "POST";
           call_headers :=
             Some (relayedHeaders integerEngine (getHeaders (loginRequest (number:=Z) None))
                     (VJson (JBool false)));
           call_body := Some "null" |} ].
Proof.
  apply (responseProvider_unparsable_body_relays_null integerEngine noHitPlatform
           (loginRequest None) start).
  reflexivity.
Defined.

(** The key generator answers 500: the worker asks the key generator,
    then the origin, and never the lookup. *)
Lemma scenario_keygen_down_still_relays :
  calls (snd (responseProvider integerEngine keygenDownPlatform scenarioRequest start))
    = [ keygenCall integerEngine
          [("uname", VJson (JStr "ab")); ("passwd", VJson (JStr "abc"))];
        originCall integerEngine scenarioRequest (parsedBody scenarioRequest)
          (VJson (JBool false)) ].
Proof.
  destruct (keygen_failure_still_relays integerEngine keygenDownPlatform
              scenarioRequest start
              [("uname", VJson (JStr "ab")); ("passwd", VJson (JStr "abc"))])
    as (st1 & _ & _ & _ & Hcalls).
  - reflexivity.
  - reflexivity.
  - apply (keygen_bad_status (textResponse 500 "Internal Server Error")). reflexivity.
  - exact Hcalls.
Defined.

(** ** Runs on concrete requests *)

(** The login [ab] / [abc] sits exactly on the two bounds. *)
Lemma run_shortest_valid_login :
  bodyIsValid integerEngine (credentials (JStr "ab") (JStr "abc")) = Ok true.
Proof.
  exact (bodyIsValid_by_lengths integerEngine
           [("username", JStr "ab"); ("password", JStr "abc")]
           (JStr "ab") (JStr "abc") 2 3 eq_refl eq_refl eq_refl eq_refl).
Defined.

(** A user name that is the number 7. *)
Lemma run_numeric_username :
  bodyIsValid integerEngine (credentials (JNum 7%Z) (JStr "abc")) = Ok false.
Proof.
  apply (bodyIsValid_lengthless_username integerEngine
           [("username", JNum 7%Z); ("password", JStr "abc")]
           (JNum 7%Z) (JStr "abc")).
  - reflexivity.
  - reflexivity.
  - left. exists 7%Z. reflexivity.
Defined.

(** The body [[]]: one sub-request, to the origin, with the body [[]]. *)
Lemma run_array_body :
  calls (snd (responseProvider integerEngine noHitPlatform
                (loginRequest (Some (JArr []))) start))
    = [ {| call_url := ORIGIN_URL;
           call_method := "POST";
           call_headers :=
             Some (<[HIT_HEADER := [Some "false"]]>
                     {[ "content-type" := [Some "application/json"] ]});
           call_body := Some "[]" |} ].
Proof.
  destruct (responseProvider_without_credentials integerEngine noHitPlatform
              (loginRequest (Some (JArr []))) start) as [_ Hcalls].
  - right. left. exists []. reflexivity.
  - rewrite Hcalls. vm_compute. reflexivity.
Defined.

(** The key generator answers [XYZ123]; the log shows [XYZ12]. *)
Lemma run_key_generated :
  getKeyFromKeyGenerator integerEngine hitPlatform scenarioKeyRequest start =
    (Ok (VJson (JStr "XYZ123")),
     logged (LogInfo "Endpoint generated a key: XYZ12.....")
       (called (keygenCall integerEngine scenarioKeyRequest) start)).
Proof.
  apply (getKeyFromKeyGenerator_success integerEngine hitPlatform scenarioKeyRequest
           start (jsonResponse 200 (JObj [("key", JStr "XYZ123")]))
           [("key", JStr "XYZ123")] "XYZ123");
    reflexivity.
Defined.

(** The key generator answers with the number 5 under [key]. *)
Lemma run_numeric_key :
  fst (getKeyFromKeyGenerator integerEngine numericKeyPlatform scenarioKeyRequest start)
    = Ok (VJson JNull).
Proof.
  rewrite (getKeyFromKeyGenerator_key_not_a_string integerEngine numericKeyPlatform
             scenarioKeyRequest start (jsonResponse 200 (JObj [("key", JNum 5%Z)]))
             [("key", JNum 5%Z)] (JNum 5%Z)).
  - reflexivity.
  - reflexivity.
  - reflexivity.
  - reflexivity.
  - reflexivity.
  - intros s. discriminate.
Defined.

(** The lookup answers [[{"result":true}]]. *)
Lemma run_lookup_true :
  keyExists integerEngine hitPlatform scenarioBindVars start =
    (Ok (VJson (JBool true)),
     logged (LogInfo "key exists: true")
       (called (lookupCall integerEngine hitPlatform scenarioBindVars) start)).
Proof.
  apply (keyExists_boolean_result integerEngine hitPlatform scenarioBindVars start
           (jsonResponse 200 (JArr [JObj [("result", JBool true)]]))
           [("result", JBool true)] [] true);
    reflexivity.
Defined.

(** The lookup answers [[]]. *)
Lemma run_lookup_empty_array :
  exists line,
    keyExists integerEngine emptyLookupPlatform scenarioBindVars start =
      (Ok (VJson (JBool false)),
       logged (LogError line)
         (called (lookupCall integerEngine emptyLookupPlatform scenarioBindVars) start)).
Proof.
  apply (keyExists_failure_returns_false integerEngine emptyLookupPlatform
           scenarioBindVars start).
  apply (lookup_no_first_element (jsonResponse 200 (JArr [])) (JArr []));
    reflexivity.
Defined.

(** The content type of the login reaches the origin. *)
Lemma run_content_type_kept :
  relayedHeaders integerEngine (getHeaders (loginRequest (number:=Z) None))
    (VJson (JBool false)) !! "content-type"
  = Some [Some "application/json"].
Proof.
  rewrite (relayedHeaders_keeps_others integerEngine
             (getHeaders (loginRequest (number:=Z) None)) (VJson (JBool false))
             "content-type").
  - reflexivity.
  - apply (bool_decide_unpack _). vm_compute. exact I.
  - discriminate.
Defined.

(** A client that sends the hit header itself changes nothing. *)
Lemma run_forged_hit_header :
  relayedHeaders integerEngine
    (<[HIT_HEADER := [Some "false"]]> (getHeaders (loginRequest (number:=Z) None)))
    (VJson (JBool true))
  = relayedHeaders integerEngine (getHeaders (loginRequest (number:=Z) None))
      (VJson (JBool true)).
Proof.
  apply (relayedHeaders_ignores_inbound integerEngine
           (getHeaders (loginRequest (number:=Z) None)) (VJson (JBool true))
           HIT_HEADER [Some "false"]).
  left. reflexivity.
Defined.

(** The key generator is down: the flag stage returns all the same,
    and the last sub-request goes to the origin. *)
Lemma run_keygen_down_reaches_origin :
  exists knownKey st1,
    leakFlag integerEngine keygenDownPlatform (parsedBody scenarioRequest) start
      = (Ok knownKey, st1)
    /\ responseProvider integerEngine keygenDownPlatform scenarioRequest start =
         relayAndRespond integerEngine keygenDownPlatform scenarioRequest
           (parsedBody scenarioRequest) knownKey st1
    /\ last (calls (snd (responseProvider integerEngine keygenDownPlatform
                           scenarioRequest start))) =
         Some (originCall integerEngine scenarioRequest (parsedBody scenarioRequest)
                 knownKey).
Proof.
  apply (responseProvider_relays_once_validated integerEngine keygenDownPlatform
           scenarioRequest start true).
  reflexivity.
Defined.

(** The hit of the scenario resolves, so the origin answered with
    success. *)
Lemma run_hit_resolved :
  exists knownKey st1 originResponse,
    leakFlag integerEngine hitPlatform (parsedBody scenarioRequest) start
      = (Ok knownKey, st1)
    /\ network hitPlatform (calls st1)
         (originCall integerEngine scenarioRequest (parsedBody scenarioRequest) knownKey)
       = inr originResponse
    /\ ok originResponse = true
    /\ createResponse 200 warningHeaders warningBody =
         if ToBoolean integerEngine knownKey
         then createResponse 200 warningHeaders warningBody
         else createResponse (status originResponse) (response_headers originResponse)
                (response_body originResponse).
Proof.
  apply (responseProvider_resolves_only_on_origin_success integerEngine hitPlatform
           scenarioRequest start (createResponse 200 warningHeaders warningBody)
           (snd (responseProvider integerEngine hitPlatform scenarioRequest start))).
  vm_compute. reflexivity.
Defined.

(** The origin cannot be reached: the invocation is rejected with the
    network error. *)
Lemma run_origin_unreachable :
  fst (responseProvider integerEngine originUnreachablePlatform (loginRequest None) start)
    = Throw (NetworkError "connection refused").
Proof.
  rewrite (responseProvider_origin_error_propagates integerEngine
             originUnreachablePlatform (loginRequest None) start
             (VJson (JBool false)) start (NetworkError "connection refused")).
  - reflexivity.
  - reflexivity.
  - reflexivity.
Defined.

(** The lookup answers [[{"result":"yes"}]]: the string is truthy and
    the warning page is served. *)
Lemma run_text_result_serves_warning :
  fst (responseProvider integerEngine textResultPlatform scenarioRequest start)
    = Ok (createResponse 200 warningHeaders warningBody).
Proof.
  rewrite (responseProvider_decides_by_truthiness integerEngine textResultPlatform
             scenarioRequest start (VJson (JStr "yes"))
             (snd (leakFlag integerEngine textResultPlatform
                     (parsedBody scenarioRequest) start))
             (textResponse 200 "OK")).
  - reflexivity.
  - vm_compute. reflexivity.
  - vm_compute. reflexivity.
  - reflexivity.
Defined.

(** The key generator answers with the empty key: two sub-requests. *)
Lemma run_empty_key :
  exists st1,
    leakFlag integerEngine emptyKeyPlatform (parsedBody scenarioRequest) start
      = (Ok (VJson (JBool false)), st1)
    /\ calls (snd (responseProvider integerEngine emptyKeyPlatform scenarioRequest start)) =
         [ keygenCall integerEngine scenarioKeyRequest;
           originCall integerEngine scenarioRequest (parsedBody scenarioRequest)
             (VJson (JBool false)) ].
Proof.
  apply (responseProvider_empty_key_skips_lookup integerEngine emptyKeyPlatform
           scenarioRequest start scenarioKeyRequest
           (jsonResponse 200 (JObj [("key", JStr EmptyString)]))
           [("key", JStr EmptyString)]);
    reflexivity.
Defined.

(** The scenario with a hit, sub-request by sub-request. *)
Lemma run_checked_login :
  calls (snd (responseProvider integerEngine hitPlatform scenarioRequest start)) =
    [ keygenCall integerEngine scenarioKeyRequest;
      lookupCall integerEngine hitPlatform scenarioBindVars;
      originCall integerEngine scenarioRequest (parsedBody scenarioRequest)
        (VJson (JBool true)) ]
  /\ headerOf (originCall integerEngine scenarioRequest (parsedBody scenarioRequest)
                 (VJson (JBool true))) HIT_HEADER
     = Some [Some "true"].
Proof.
  apply (responseProvider_checked_login integerEngine hitPlatform scenarioRequest start
           scenarioKeyRequest
           (jsonResponse 200 (JObj [("key", JStr "XYZ123")])) [("key", JStr "XYZ123")]
           "XYZ123"
           (jsonResponse 200 (JArr [JObj [("result", JBool true)]]))
           [("result", JBool true)] [] true);
    try reflexivity.
  discriminate.
Defined.
